(** * Blip2Base (image_tokenizer/models/seed_qformer/blip2.py)

    A shallow embedding of the class [Blip2Base] and of the [LayerNorm]
    subclass defined next to it, and the properties of their methods.

    The file is glue over PyTorch, transformers and spacy.  The methods are
    embedded statement by statement in a state-and-exception monad; every
    call that leaves the file (torch, transformers, spacy, the sibling
    modules [utils], [eva_vit], [clip_vit], [qformer_causual]) is an
    operation of the class [Library], about which nothing is assumed unless
    a theorem says so in a hypothesis. *)

From Stdlib Require Import PrimFloat Ascii.
From stdpp Require Import base option strings list gmap pretty.

(** ** Python values *)

(** Python numbers: [int] is unbounded, [float] is binary64. *)
Inductive PyNum : Type :=
| PyInt (z : Z)
| PyFloat (f : float).

(** A reference to an object owned by a library (a tokenizer, a model, a
    spacy pipeline): its class name and its identity. *)
Inductive PyObject : Type :=
| Obj (cls : string) (addr : positive).

Global Instance PyObject_eq_dec : EqDecision PyObject.
Proof. solve_decision. Defined.

(** Attribute values of a configuration object. *)
Inductive PyVal : Type :=
| VNone
| VBool (b : bool)
| VNum (n : PyNum)
| VStr (s : string).

(** ** Exceptions *)

Inductive ExnClass : Type :=
| BaseException | SystemExit | Exception
| AssertionError | AttributeError
| ImportError | ModuleNotFoundError
| LookupError | IndexError | KeyError
| NameError | UnboundLocalError
| OSError | RuntimeError | TypeError | ValueError
| ArithmeticError | OverflowError | ZeroDivisionError.

Global Instance ExnClass_eq_dec : EqDecision ExnClass.
Proof. solve_decision. Defined.

(** The direct base class of each built-in exception class. *)
Definition exn_base (c : ExnClass) : option ExnClass :=
  match c with
  | BaseException => None
  | SystemExit | Exception => Some BaseException
  | ModuleNotFoundError => Some ImportError
  | IndexError | KeyError => Some LookupError
  | UnboundLocalError => Some NameError
  | OverflowError | ZeroDivisionError => Some ArithmeticError
  | _ => Some Exception
  end.

Fixpoint exn_mro_upto (fuel : nat) (c : ExnClass) : list ExnClass :=
  c :: match fuel, exn_base c with
       | S fuel', Some b => exn_mro_upto fuel' b
       | _, _ => []
       end.

(** The hierarchy is four classes deep. *)
Definition exn_mro : ExnClass -> list ExnClass := exn_mro_upto 4.

Definition issubclass (c d : ExnClass) : bool := bool_decide (d ∈ exn_mro c).

Inductive ExnArg : Type :=
| ArgStr (s : string)
| ArgInt (z : Z).

Record PyExn : Type := mkExn { exn_class : ExnClass; exn_arg : ExnArg }.

(** Where an exception that leaves a method comes from: from a statement
    of the method itself ([Here]: a [raise], an [assert], a lookup of a
    local name, of an attribute of [self] or [super()], of an item, or the
    built-in [exit]), or from a call of an operation of [Library], out of
    which it escapes unchanged ([Callee]). *)
Inductive Origin : Type := Here | Callee.

Inductive Outcome (A : Type) : Type :=
| Return (a : A)
| Raise (o : Origin) (e : PyExn).
Arguments Return {A} a.
Arguments Raise {A} o e.

Definition obind {A B} (m : Outcome A) (k : A -> Outcome B) : Outcome B :=
  match m with
  | Return a => k a
  | Raise o e => Raise o e
  end.

(** The result of a library function that does not touch the world. *)
Definition of_lib {A} (r : PyExn + A) : Outcome A :=
  match r with
  | inr a => Return a
  | inl e => Raise Callee e
  end.

Declare Scope O_scope.
Delimit Scope O_scope with O.
Notation "x <- m ;; k" := (obind m (λ x, k))
  (at level 100, m at next level, right associativity) : O_scope.

(** ** Strings *)

(** [sub in s] *)
Fixpoint py_in (sub s : string) : bool :=
  String.prefix sub s ||
  match s with
  | EmptyString => false
  | String _ s' => py_in sub s'
  end.

(** [s.endswith(suf)] *)
Fixpoint endswith (suf s : string) : bool :=
  String.eqb s suf ||
  match s with
  | EmptyString => false
  | String _ s' => endswith suf s'
  end.

(** [s.replace(old, new)] for a non-empty [old]: the occurrences are
    replaced from left to right, without overlap.  [skip] counts the
    characters of a matched occurrence still to be dropped. *)
Fixpoint replace_go (old new : string) (skip : nat) (s : string) : string :=
  match s with
  | EmptyString => EmptyString
  | String c s' =>
      match skip with
      | S k => replace_go old new k s'
      | O =>
          if String.prefix old s
          then new +:+ replace_go old new (String.length old - 1) s'
          else String c (replace_go old new 0 s')
      end
  end.

(** With an empty [old], Python puts [new] before every character and at
    the end. *)
Fixpoint replace_empty (new s : string) : string :=
  match s with
  | EmptyString => new
  | String c s' => new +:+ String c (replace_empty new s')
  end.

Definition py_replace (old new s : string) : string :=
  match old with
  | EmptyString => replace_empty new s
  | _ => replace_go old new 0 s
  end.

(** ** Lists and dicts *)

(** [range(n)] *)
Definition py_range (n : Z) : list Z := Z.of_nat <$> seq 0 (Z.to_nat n).

Definition index_out_of_range : string := "list index out of range".

(** [list(f(i) for i in l)]: the elements are computed in order, and the
    first exception ends the computation. *)
Fixpoint py_listcomp {A B} (f : A -> Outcome B) (l : list A)
  : Outcome (list B) :=
  match l with
  | [] => Return []
  | x :: l' =>
      (y <- f x ;;
       ys <- py_listcomp f l' ;;
       Return (y :: ys))%O
  end.

(** [l[i]]: a negative index counts from the end. *)
Definition py_index {A} (l : list A) (i : Z) : Outcome A :=
  let len := Z.of_nat (length l) in
  let j := if decide (i < 0)%Z then (len + i)%Z else i in
  if decide (0 ≤ j < len)%Z
  then match l !! Z.to_nat j with
       | Some a => Return a
       | None => Raise Here (mkExn IndexError (ArgStr index_out_of_range))
       end
  else Raise Here (mkExn IndexError (ArgStr index_out_of_range)).

(** A [dict] with string keys, in insertion order. *)
Definition dict (V : Type) : Type := list (string * V).

Fixpoint dict_get {V} (d : dict V) (k : string) : option V :=
  match d with
  | [] => None
  | (k', v) :: d' => if decide (k' = k) then Some v else dict_get d' k
  end.

(** [k in d] *)
Definition dict_contains {V} (d : dict V) (k : string) : bool :=
  bool_decide (k ∈ d.*1).

(** [d[k] = v]: an existing key keeps its place. *)
Fixpoint dict_set {V} (d : dict V) (k : string) (v : V) : dict V :=
  match d with
  | [] => [(k, v)]
  | (k', v') :: d' =>
      if decide (k' = k) then (k, v) :: d' else (k', v') :: dict_set d' k v
  end.

(** [d[k]] *)
Definition dict_item {V} (d : dict V) (k : string) : Outcome V :=
  match dict_get d k with
  | Some v => Return v
  | None => Raise Here (mkExn KeyError (ArgStr k))
  end.

(** [list(d.values())] *)
Definition dict_values {V} (d : dict V) : list V := d.*2.

(** ** Tensors and modules *)

Inductive dtype : Type := float16 | bfloat16 | float32 | float64 | int64.

Global Instance dtype_eq_dec : EqDecision dtype.
Proof. solve_decision. Defined.

Record Tensor : Type := mkTensor {
  t_dtype : dtype;
  t_shape : list Z;
  t_data : list float;
}.

(** [nn.Parameter] *)
Record Param : Type := mkParam {
  p_data : Tensor;
  requires_grad : bool;
}.

(** [param.shape] *)
Definition shape (p : Param) : list Z := t_shape (p_data p).

(** The vision encoders of [eva_vit] and [clip_vit], as far as this file
    reads them. *)
Record VisionEncoder : Type := mkVisionEncoder {
  enc_object : PyObject;
  num_features : Z;
}.

(** The class [LayerNorm] of this file; [__init__] is inherited. *)
Record LayerNorm : Type := mkLayerNorm { normalized_shape : Z }.

(** One entry of the optimizer's parameter groups. *)
Record ParamGroup (P : Type) : Type := mkGroup {
  group_weight_decay : PyNum;
  group_params : list P;
  group_lr_scale : PyNum;
}.
Arguments mkGroup {P} _ _ _.
Arguments group_weight_decay {P} _.
Arguments group_params {P} _.
Arguments group_lr_scale {P} _.

(** The instance attributes of a [Blip2Base] (or of a subclass) this file
    touches.  [None] is an attribute that was never assigned;
    [_lemmatizer = Some None] is the attribute holding Python's [None]. *)
Record Blip2Base : Type := mkBlip2Base {
  vit_name : option string;
  visual_encoder : option VisionEncoder;
  _lemmatizer : option (option PyObject);
  named_parameters : list (string * Param);
}.

Inductive LogLevel : Type := INFO | ERROR.

(** ** The libraries *)

(** A call into a library may read and change the world (file system,
    network, download cache, heap of library objects, random generator)
    and returns a value or raises. *)
Definition Lib (World A : Type) : Type := World -> (PyExn + A) * World.

(** A method inherited from [nn.Module]: it may also change the instance,
    and what it has changed stays changed when it raises. *)
Definition Method (World A : Type) : Type :=
  Blip2Base -> World -> (PyExn + A) * Blip2Base * World.

Class Library (World : Type) : Type := {
  (* Python's float arithmetic: [f ** e] and [float(z)], which raise
     [OverflowError] (or [ZeroDivisionError]) rather than return an
     infinity *)
  float_pow : float -> Z -> PyExn + float;
  int_to_float : Z -> PyExn + float;
  (* .utils and os.path *)
  is_url : string -> bool;
  download_cached_file : string -> bool -> bool -> Lib World string;
  os_path_isfile : string -> World -> bool;
  (* torch *)
  torch_load : string -> string -> Lib World (gmap string PyObject);
  load_state_dict : PyObject -> bool -> Method World PyObject;
  nn_Module_attr :
    string ->
    option (Blip2Base -> list PyNum -> Lib World (list (ParamGroup Param)));
  torch_zeros : list PyVal -> PyExn + Tensor;
  normal_ : Tensor -> PyNum -> PyVal -> Lib World Tensor;
  cast_data : dtype -> dtype -> list float -> list float;
  nn_LayerNorm_forward : LayerNorm -> Tensor -> PyExn + Tensor;
  (* .eva_vit and .clip_vit *)
  create_eva_vit_g :
    Z -> PyNum -> bool -> string -> string -> Lib World VisionEncoder;
  create_clip_vit_L : Z -> bool -> string -> string -> Lib World VisionEncoder;
  get_num_layer : VisionEncoder -> option string -> PyExn + Z;
  (* transformers and .qformer_causual *)
  BertTokenizer_from_pretrained : string -> string -> Lib World PyObject;
  add_special_tokens : PyObject -> list (string * string) -> Lib World Z;
  BertConfig_from_pretrained : string -> Lib World (gmap string PyVal);
  BertLMHeadModel_from_pretrained :
    string -> gmap string PyVal -> Lib World PyObject;
  (* spacy *)
  import_spacy : Lib World PyObject;
  spacy_load : PyObject -> string -> Lib World PyObject;
}.

(** ** The monad of methods *)

Record State (World : Type) : Type := mkState {
  self : Blip2Base;
  world : World;
  log : list (LogLevel * string);
}.
Arguments mkState {World} _ _ _.
Arguments self {World} _.
Arguments world {World} _.
Arguments log {World} _.

Definition M (World A : Type) : Type := State World -> Outcome A * State World.

Declare Scope M_scope.
Delimit Scope M_scope with M.

Section Monad.
Context {World : Type}.

Definition ret {A} (a : A) : M World A := λ st, (Return a, st).

Definition bind {A B} (m : M World A) (k : A -> M World B) : M World B :=
  λ st, match m st with
        | (Return a, st') => k a st'
        | (Raise o e, st') => (Raise o e, st')
        end.

(** [raise cls(arg)] *)
Definition raise {A} (c : ExnClass) (arg : ExnArg) : M World A :=
  λ st, (Raise Here (mkExn c arg), st).

(** A call into a library; its exceptions escape as they are. *)
Definition call {A} (f : Lib World A) : M World A :=
  λ st, match f (world st) with
        | (inr a, w) => (Return a, mkState (self st) w (log st))
        | (inl e, w) => (Raise Callee e, mkState (self st) w (log st))
        end.

(** A call of a method inherited from [nn.Module] on [self]. *)
Definition call_method {A} (f : Method World A) : M World A :=
  λ st, match f (self st) (world st) with
        | (inr a, this, w) => (Return a, mkState this w (log st))
        | (inl e, this, w) => (Raise Callee e, mkState this w (log st))
        end.

(** What [nn.Module] makes of a property: an [AttributeError] that leaves
    the getter is swallowed by the attribute lookup, which falls back on
    [nn.Module.__getattr__]; that finds no parameter, buffer or submodule
    of the property's name and raises its own [AttributeError] for it. *)
Definition module_property {A} (name : string) (getter : M World A)
  : M World A :=
  λ st, match getter st with
        | (Return a, st') => (Return a, st')
        | (Raise o e, st') =>
            if issubclass (exn_class e) AttributeError
            then (Raise Here (mkExn AttributeError (ArgStr name)), st')
            else (Raise o e, st')
        end.

(** A computation that does not touch the state. *)
Definition lift {A} (r : Outcome A) : M World A := λ st, (r, st).

(** [try: body  except cls: handler] *)
Definition try_except {A} (body : M World A) (cls : ExnClass)
    (handler : M World A) : M World A :=
  λ st, match body st with
        | (Return a, st') => (Return a, st')
        | (Raise o e, st') =>
            if issubclass (exn_class e) cls then handler st'
            else (Raise o e, st')
        end.

(** [assert cond, msg] *)
Definition py_assert (cond : bool) (msg : string) : M World unit :=
  if cond then ret tt else raise AssertionError (ArgStr msg).

(** Reading a local variable that a branch may have left unassigned. *)
Definition read_local {A} (name : string) (v : option A) : M World A :=
  match v with
  | Some a => ret a
  | None => raise UnboundLocalError (ArgStr name)
  end.

(** [self.name] *)
Definition getattr {A} (name : string) (field : Blip2Base -> option A)
  : M World A :=
  λ st, match field (self st) with
        | Some a => (Return a, st)
        | None => (Raise Here (mkExn AttributeError (ArgStr name)), st)
        end.

(** [self.name = v], as an update of the instance. *)
Definition setattr (upd : Blip2Base -> Blip2Base) : M World unit :=
  λ st, (Return tt, mkState (upd (self st)) (world st) (log st)).

Definition read_world {A} (f : World -> A) : M World A :=
  λ st, (Return (f (world st)), st).

(** [d[k]] on a dict loaded from a checkpoint *)
Definition getitem {V} (d : gmap string V) (k : string) : M World V :=
  match d !! k with
  | Some v => ret v
  | None => raise KeyError (ArgStr k)
  end.

Definition get_self : M World Blip2Base := λ st, (Return (self st), st).

(** [logging.info], [logging.error] *)
Definition logging (lvl : LogLevel) (msg : string) : M World unit :=
  λ st, (Return tt, mkState (self st) (world st) (log st ++ [(lvl, msg)])).

(** [exit(code)] *)
Definition py_exit {A} (code : Z) : M World A := raise SystemExit (ArgInt code).
End Monad.

Notation "x <- m ;; k" := (bind m (λ x, k))
  (at level 100, m at next level, right associativity) : M_scope.
Notation "m ;; k" := (bind m (λ _, k))
  (at level 100, right associativity) : M_scope.

Local Open Scope M_scope.

(** ** Blip2Base *)

Definition set_vit_name (v : string) (s : Blip2Base) : Blip2Base :=
  mkBlip2Base (Some v) (visual_encoder s) (_lemmatizer s) (named_parameters s).

Definition set_lemmatizer (v : option PyObject) (s : Blip2Base) : Blip2Base :=
  mkBlip2Base (vit_name s) (visual_encoder s) (Some v) (named_parameters s).

Section Blip2Base.
Context {World : Type} `{!Library World}.

(** [init_vision_encoder]; [model_root_dir] defaults to ['models']. *)
Definition init_vision_encoder (model_name : string) (img_size : Z)
    (drop_path_rate : PyNum) (use_grad_checkpoint : bool)
    (precision : string) (model_root_dir : option string)
  : M World (VisionEncoder * LayerNorm) :=
  let model_root_dir := default "models" model_root_dir in
  py_assert
    (bool_decide (model_name ∈ ["eva_clip_g"; "eva2_clip_L"; "clip_L"]))
    "vit model must be eva_clip_g, eva2_clip_L or clip_L" ;;
  visual_encoder <-
    (if String.eqb model_name "eva_clip_g" then
       e <- call (create_eva_vit_g img_size drop_path_rate
                    use_grad_checkpoint precision model_root_dir) ;;
       ret (Some e)
     else if String.eqb model_name "clip_L" then
       e <- call (create_clip_vit_L img_size use_grad_checkpoint
                    precision model_root_dir) ;;
       ret (Some e)
     else ret None) ;;
  visual_encoder <- read_local "visual_encoder" visual_encoder ;;
  let ln_vision := mkLayerNorm (num_features visual_encoder) in
  setattr (set_vit_name model_name) ;;
  ret (visual_encoder, ln_vision).

(** [load_from_pretrained] *)
Definition load_from_pretrained (url_or_filename : string) : M World PyObject :=
  checkpoint <-
    (if is_url url_or_filename then
       cached_file <- call (download_cached_file url_or_filename false true) ;;
       call (torch_load cached_file "cpu")
     else
       isfile <- read_world (os_path_isfile url_or_filename) ;;
       if isfile : bool then call (torch_load url_or_filename "cpu")
       else raise RuntimeError (ArgStr "checkpoint url or path is invalid")) ;;
  state_dict <- getitem checkpoint "model" ;;
  msg <- call_method (load_state_dict state_dict false) ;;
  logging INFO ("load checkpoint from " +:+ url_or_filename) ;;
  ret msg.

(** [lr_scale ** e] with an [int] exponent: exact on an [int] base and a
    non-negative exponent, float arithmetic otherwise, with its
    [OverflowError] and [ZeroDivisionError]. *)
Definition py_pow (b : PyNum) (e : Z) : Outcome PyNum :=
  match b with
  | PyInt z =>
      if decide (0 ≤ e)%Z then Return (PyInt (z ^ e))
      else
        match int_to_float z with
        | inr f =>
            match float_pow f e with
            | inr r => Return (PyFloat r)
            | inl exn => Raise Here exn
            end
        | inl exn => Raise Here exn
        end
  | PyFloat f =>
      match float_pow f e with
      | inr r => Return (PyFloat r)
      | inl exn => Raise Here exn
      end
  end.

(** ["vit_layer_%d_%s" % (layer_id, group_name)] *)
Definition vit_layer_group_name (layer_id : Z) (group_name : string) : string :=
  "vit_layer_" +:+ pretty layer_id +:+ "_" +:+ group_name.

(** The body of the loop over [self.named_parameters()], on the two
    dicts [parameter_group_names] and [parameter_group_vars]. *)
Definition add_parameter (enc : VisionEncoder) (lr_scales : list PyNum)
    (weight_decay : PyNum)
    (groups : dict (ParamGroup string) * dict (ParamGroup Param))
    (named : string * Param)
  : Outcome (dict (ParamGroup string) * dict (ParamGroup Param)) :=
  (let parameter_group_names := groups.1 in
   let parameter_group_vars := groups.2 in
   let name := named.1 in
   let param := named.2 in
   if negb (requires_grad param) then Return groups
   else
     let group_name :=
       if bool_decide (length (shape param) = 1) || endswith ".bias" name
       then "no_decay" else "decay" in
     let this_weight_decay :=
       if bool_decide (length (shape param) = 1) || endswith ".bias" name
       then PyFloat 0 else weight_decay in
     layer_id <-
       (if py_in "visual_encoder" name then
          l <- of_lib (get_num_layer enc
                         (Some (py_replace "visual_encoder." "" name))) ;;
          Return (Some l)
        else Return None) ;;
     let group_name :=
       match layer_id with
       | Some l => vit_layer_group_name l group_name
       | None => group_name
       end in
     created <-
       (if negb (dict_contains parameter_group_names group_name) then
          scale <- match layer_id with
                   | Some l => py_index lr_scales l
                   | None => Return (PyInt 1)
                   end ;;
          Return
            (dict_set parameter_group_names group_name
               (mkGroup this_weight_decay [] scale),
             dict_set parameter_group_vars group_name
               (mkGroup this_weight_decay [] scale))
        else Return (parameter_group_names, parameter_group_vars)) ;;
     let parameter_group_names := created.1 in
     let parameter_group_vars := created.2 in
     gv <- dict_item parameter_group_vars group_name ;;
     let parameter_group_vars :=
       dict_set parameter_group_vars group_name
         (mkGroup (group_weight_decay gv) (group_params gv ++ [param])
            (group_lr_scale gv)) in
     gn <- dict_item parameter_group_names group_name ;;
     let parameter_group_names :=
       dict_set parameter_group_names group_name
         (mkGroup (group_weight_decay gn) (group_params gn ++ [name])
            (group_lr_scale gn)) in
     Return (parameter_group_names, parameter_group_vars))%O.

(** The loop. *)
Fixpoint parameter_groups (enc : VisionEncoder) (lr_scales : list PyNum)
    (weight_decay : PyNum)
    (groups : dict (ParamGroup string) * dict (ParamGroup Param))
    (named : list (string * Param))
  : Outcome (dict (ParamGroup string) * dict (ParamGroup Param)) :=
  match named with
  | [] => Return groups
  | np :: rest =>
      (groups' <- add_parameter enc lr_scales weight_decay groups np ;;
       parameter_groups enc lr_scales weight_decay groups' rest)%O
  end.

(** [super().name]: the base class of [Blip2Base] is [nn.Module]. *)
Definition super_getattr (name : string)
  : M World (Blip2Base -> list PyNum -> Lib World (list (ParamGroup Param))) :=
  match nn_Module_attr name with
  | Some f => ret f
  | None => raise AttributeError (ArgStr name)
  end.

(** [get_optimizer_params]; [lr_scale] defaults to [1]. *)
Definition get_optimizer_params (weight_decay : PyNum) (lr_scale : option PyNum)
  : M World (list (ParamGroup Param)) :=
  let lr_scale := default (PyInt 1) lr_scale in
  vit_name <- getattr "vit_name" vit_name ;;
  if String.eqb vit_name "eva_clip_g" then
    visual_encoder <- getattr "visual_encoder" visual_encoder ;;
    vit_num_layers <- lift (of_lib (get_num_layer visual_encoder None)) ;;
    lr_scales <-
      lift (py_listcomp (λ i, py_pow lr_scale (vit_num_layers + 1 - i))
              (py_range (vit_num_layers + 2))) ;;
    this <- get_self ;;
    groups <- lift (parameter_groups visual_encoder lr_scales weight_decay
                      ([], []) (named_parameters this)) ;;
    let optim_params := dict_values groups.2 in
    ret optim_params
  else
    method <- super_getattr "get_optimizer_params" ;;
    this <- get_self ;;
    call (method this [weight_decay; lr_scale]).

(** The message of [logging.error] in [lemmatizer]. *)
Definition lemmatizer_message : string :=
  "
                    Please install spacy and en_core_web_sm model to apply lemmatization.
                    python -m spacy download en_core_web_sm
                    OR
                    import spacy.cli
                    spacy.cli.download(" +:+ String "034"%char "en_core_web_sm"
  +:+ String "034"%char ")
                    ".

(** The getter of the property [lemmatizer]. *)
Definition lemmatizer_getter : M World (option PyObject) :=
  current <- getattr "_lemmatizer" _lemmatizer ;;
  match current with
  | None =>
      try_except
        (spacy <- call import_spacy ;;
         nlp <- call (spacy_load spacy "en_core_web_sm") ;;
         setattr (set_lemmatizer (Some nlp)))
        ImportError
        (logging ERROR lemmatizer_message ;;
         py_exit 1)
  | Some _ => ret tt
  end ;;
  getattr "_lemmatizer" _lemmatizer.

(** The property [lemmatizer], on a subclass of [nn.Module]. *)
Definition lemmatizer : M World (option PyObject) :=
  module_property "lemmatizer" lemmatizer_getter.

(** [init_tokenizer]; [truncation_side] defaults to ["right"]. *)
Definition init_tokenizer (truncation_side : option string)
  : M World PyObject :=
  let truncation_side := default "right" truncation_side in
  tokenizer <- call (BertTokenizer_from_pretrained "bert-base-uncased"
                       truncation_side) ;;
  call (add_special_tokens tokenizer [("bos_token", "[DEC]")]) ;;
  ret tokenizer.

(** [config.name] *)
Definition config_getattr (config : gmap string PyVal) (name : string)
  : M World PyVal :=
  match config !! name with
  | Some v => ret v
  | None => raise AttributeError (ArgStr name)
  end.

(** [init_Qformer]; [cross_attention_freq] defaults to [2].  The
    configuration is a value here: [from_pretrained] gets the updated
    attributes and cannot change the ones read after it. *)
Definition init_Qformer (num_query_token vision_width : Z)
    (cross_attention_freq : option Z) : M World (PyObject * Param) :=
  let cross_attention_freq := default 2%Z cross_attention_freq in
  encoder_config <- call (BertConfig_from_pretrained "bert-base-uncased") ;;
  let encoder_config :=
    <["encoder_width" := VNum (PyInt vision_width)]> encoder_config in
  let encoder_config :=
    <["add_cross_attention" := VBool true]> encoder_config in
  let encoder_config :=
    <["cross_attention_freq" := VNum (PyInt cross_attention_freq)]>
      encoder_config in
  let encoder_config :=
    <["query_length" := VNum (PyInt num_query_token)]> encoder_config in
  Qformer <- call (BertLMHeadModel_from_pretrained "bert-base-uncased"
                     encoder_config) ;;
  hidden_size <- config_getattr encoder_config "hidden_size" ;;
  zeros <- lift (of_lib (torch_zeros [VNum (PyInt 1);
                                       VNum (PyInt num_query_token);
                                       hidden_size])) ;;
  let query_tokens := mkParam zeros true in
  std <- config_getattr encoder_config "initializer_range" ;;
  data <- call (normal_ (p_data query_tokens) (PyFloat 0) std) ;;
  let query_tokens := mkParam data (requires_grad query_tokens) in
  ret (Qformer, query_tokens).

(** [x.type(d)] *)
Definition tensor_type (x : Tensor) (d : dtype) : Tensor :=
  mkTensor d (t_shape x) (cast_data (t_dtype x) d (t_data x)).

(** [LayerNorm.forward] *)
Definition forward (this : LayerNorm) (x : Tensor) : Outcome Tensor :=
  (let orig_type := t_dtype x in
   ret <- of_lib (nn_LayerNorm_forward this (tensor_type x float32)) ;;
   Return (tensor_type ret orig_type))%O.

End Blip2Base.

(** ** Notions used to state the properties *)

(** [n] accesses of the property [lemmatizer] in a row, with their
    results. *)
Fixpoint lemmatizer_accesses {World : Type} `{!Library World} (n : nat)
  : M World (list (option PyObject)) :=
  match n with
  | O => ret []
  | S n' =>
      nlp <- lemmatizer ;;
      rest <- lemmatizer_accesses n' ;;
      ret (nlp :: rest)
  end.

(** The configuration handed to [BertLMHeadModel.from_pretrained]. *)
Definition Qformer_config (pretrained : gmap string PyVal)
    (num_query_token vision_width cross_attention_freq : Z)
  : gmap string PyVal :=
  <["query_length" := VNum (PyInt num_query_token)]>
    (<["cross_attention_freq" := VNum (PyInt cross_attention_freq)]>
       (<["add_cross_attention" := VBool true]>
          (<["encoder_width" := VNum (PyInt vision_width)]> pretrained))).

(** [len(param.shape) == 1 or name.endswith(".bias")] *)
Definition is_no_decay (name : string) (param : Param) : bool :=
  bool_decide (length (shape param) = 1) || endswith ".bias" name.

(** The name under which a parameter is grouped: ["decay"] or
    ["no_decay"], behind the layer for a parameter of the encoder. *)
Definition group_key (no_decay : bool) (layer_id : option Z) : string :=
  let base := if no_decay then "no_decay" else "decay" in
  match layer_id with
  | Some l => "vit_layer_" +:+ pretty l +:+ "_" +:+ base
  | None => base
  end.

(** The layer of a parameter of the encoder; [None] for the others. *)
Definition layer_of {World : Type} `{!Library World} (enc : VisionEncoder)
    (name : string) : option Z :=
  if py_in "visual_encoder" name then
    match get_num_layer enc (Some (py_replace "visual_encoder." "" name)) with
    | inr l => Some l
    | inl _ => None
    end
  else None.

Definition key_of {World : Type} `{!Library World} (enc : VisionEncoder)
    (name : string) (param : Param) : string :=
  group_key (is_no_decay name param) (layer_of enc name).

Definition wd_of (weight_decay : PyNum) (no_decay : bool) : PyNum :=
  if no_decay then PyFloat 0 else weight_decay.

(** The value of [scale ** e], where it is computed without exception
    (the properties stated with it assume that it is). *)
Definition power_of {World : Type} `{!Library World} (scale : PyNum) (e : Z)
  : PyNum :=
  match py_pow scale e with
  | Return p => p
  | Raise _ _ => scale
  end.

Definition scale_of {World : Type} `{!Library World} (vit_num_layers : Z)
    (scale : PyNum) (layer_id : option Z) : PyNum :=
  match layer_id with
  | Some l => power_of scale (vit_num_layers + 1 - l)
  | None => PyInt 1
  end.

(** The encoder knows the layer of the parameter, and the layer has an
    entry in [lr_scales]. *)
Definition known_layer {World : Type} `{!Library World} (enc : VisionEncoder)
    (vit_num_layers : Z) (name : string) : Prop :=
  py_in "visual_encoder" name = true →
  ∃ l, get_num_layer enc (Some (py_replace "visual_encoder." "" name)) = inr l
       ∧ (0 ≤ l ≤ vit_num_layers + 1)%Z.

(** What one iteration does to one of the two dicts: append to the group
    of the key, creating the group first when it is missing. *)
Definition upsert {World : Type} `{!Library World} {P} (vit_num_layers : Z)
    (scale weight_decay : PyNum) (d : dict (ParamGroup P)) (k : string)
    (no_decay : bool) (layer_id : option Z) (x : P) : dict (ParamGroup P) :=
  dict_set d k
    match dict_get d k with
    | Some g =>
        mkGroup (group_weight_decay g) (group_params g ++ [x])
          (group_lr_scale g)
    | None =>
        mkGroup (wd_of weight_decay no_decay) [x]
          (scale_of vit_num_layers scale layer_id)
    end.

(** The invariant of the loop, after the parameters [seen]: the two dicts
    have the same keys and groups of the same length; every group carries
    the settings of its key; every trainable parameter seen sits, with its
    name at the same position, in the group of its key. *)
Record groups_inv {World : Type} `{!Library World} (enc : VisionEncoder)
    (vit_num_layers : Z) (scale weight_decay : PyNum)
    (seen : list (string * Param))
    (groups : dict (ParamGroup string) * dict (ParamGroup Param)) : Prop := {
  inv_keys : ∀ k,
    is_Some (dict_get groups.1 k) ↔ is_Some (dict_get groups.2 k);
  inv_length : ∀ k gn gv,
    dict_get groups.1 k = Some gn → dict_get groups.2 k = Some gv →
    length (group_params gn) = length (group_params gv);
  inv_settings : ∀ k gv,
    dict_get groups.2 k = Some gv →
    ∃ nd layer,
      k = group_key nd layer
      ∧ group_weight_decay gv = wd_of weight_decay nd
      ∧ group_lr_scale gv = scale_of vit_num_layers scale layer;
  inv_placed : ∀ name param,
    (name, param) ∈ seen → requires_grad param = true →
    ∃ gn gv j,
      dict_get groups.1 (key_of enc name param) = Some gn
      ∧ dict_get groups.2 (key_of enc name param) = Some gv
      ∧ group_params gn !! j = Some name
      ∧ group_params gv !! j = Some param;
}.

(** ** A small executable library

    A concrete world and [Library] on which the methods run; the examples
    below evaluate the methods on it. *)

Record ToyWorld : Type := mkToyWorld {
  files : list string;
  next_addr : positive;
  spacy_installed : bool;
}.

Definition fresh (cls : string) (w : ToyWorld) : PyObject * ToyWorld :=
  (Obj cls (next_addr w),
   mkToyWorld (files w) (Pos.succ (next_addr w)) (spacy_installed w)).

Definition toy_new (cls : string) : Lib ToyWorld PyObject :=
  λ w, let r := fresh cls w in (inr r.1, r.2).

Fixpoint toy_float_pow_nat (f : float) (n : nat) : float :=
  match n with
  | O => 1%float
  | S n' => (f * toy_float_pow_nat f n')%float
  end.

Definition toy_finite (what : string) (r : float) : PyExn + float :=
  if PrimFloat.is_infinity r then inl (mkExn OverflowError (ArgStr what))
  else inr r.

Definition toy_float_pow (f : float) (e : Z) : PyExn + float :=
  if decide (0 ≤ e)%Z then
    toy_finite "Numerical result out of range"
      (toy_float_pow_nat f (Z.to_nat e))
  else if PrimFloat.is_zero f then
    inl (mkExn ZeroDivisionError
           (ArgStr "0.0 cannot be raised to a negative power"))
  else
    toy_finite "Numerical result out of range"
      (1 / toy_float_pow_nat f (Z.to_nat (- e)))%float.

Fixpoint toy_int_to_float_nat (n : nat) : float :=
  match n with
  | O => 0%float
  | S n' => (1 + toy_int_to_float_nat n')%float
  end.

Definition toy_int_to_float (z : Z) : PyExn + float :=
  toy_finite "int too large to convert to float"
    (if decide (0 ≤ z)%Z then toy_int_to_float_nat (Z.to_nat z)
     else (- toy_int_to_float_nat (Z.to_nat (- z)))%float).

Definition toy_is_url (s : string) : bool :=
  String.prefix "http://" s || String.prefix "https://" s.

Definition toy_download (url : string) (check_hash progress : bool)
  : Lib ToyWorld string :=
  λ w, (inr ("/cache/" +:+ url),
        mkToyWorld (("/cache/" +:+ url) :: files w) (next_addr w)
          (spacy_installed w)).

Definition toy_isfile (path : string) (w : ToyWorld) : bool :=
  bool_decide (path ∈ files w).

Definition toy_torch_load (path map_location : string)
  : Lib ToyWorld (gmap string PyObject) :=
  λ w, if bool_decide (path ∈ files w)
       then (inr {[ "model" := Obj "OrderedDict" 1 ]}, w)
       else (inl (mkExn OSError (ArgStr path)), w).

Definition toy_load_state_dict (state_dict : PyObject) (strict : bool)
  : Method ToyWorld PyObject :=
  λ m w, let r := fresh "_IncompatibleKeys" w in (inr r.1, m, r.2).

Definition toy_dim (v : PyVal) : option Z :=
  match v with
  | VNum (PyInt z) => if decide (0 ≤ z)%Z then Some z else None
  | _ => None
  end.

Definition toy_zeros (size : list PyVal) : PyExn + Tensor :=
  match mapM toy_dim size with
  | Some dims =>
      inr (mkTensor float32 dims
             (replicate (Z.to_nat (foldr Z.mul 1%Z dims)) 0%float))
  | None => inl (mkExn RuntimeError (ArgStr "zeros"))
  end.

Definition toy_normal (t : Tensor) (mean : PyNum) (std : PyVal)
  : Lib ToyWorld Tensor :=
  λ w, (inr (mkTensor (t_dtype t) (t_shape t)
               (match mean with
                | PyFloat m => const m <$> t_data t
                | PyInt _ => t_data t
                end)),
        mkToyWorld (files w) (Pos.succ (next_addr w)) (spacy_installed w)).

Definition toy_layer_norm (ln : LayerNorm) (x : Tensor) : PyExn + Tensor :=
  if decide (last (t_shape x) = Some (normalized_shape ln)) then inr x
  else inl (mkExn RuntimeError (ArgStr "layer_norm")).

Definition toy_create (cls : string) (width : Z) : Lib ToyWorld VisionEncoder :=
  λ w, let r := fresh cls w in (inr (mkVisionEncoder r.1 width), r.2).

(** A two-block encoder. *)
Definition toy_get_num_layer (enc : VisionEncoder) (var_name : option string)
  : PyExn + Z :=
  match var_name with
  | None => inr 2%Z
  | Some v =>
      if String.prefix "patch_embed" v then inr 0%Z
      else if String.prefix "blocks.0." v then inr 1%Z
      else if String.prefix "blocks.1." v then inr 2%Z
      else if String.prefix "blocks" v
           then inl (mkExn ValueError (ArgStr v))
           else inr 2%Z
  end.

Definition toy_config : gmap string PyVal :=
  {[ "hidden_size" := VNum (PyInt 768);
     "initializer_range" := VNum (PyFloat 0x1.47ae147ae147bp-6) ]}.

Definition toy_import_spacy : Lib ToyWorld PyObject :=
  λ w, if spacy_installed w then (inr (Obj "module" 1), w)
       else (inl (mkExn ModuleNotFoundError (ArgStr "spacy")), w).

Global Instance toy_library : Library ToyWorld := {|
  float_pow := toy_float_pow;
  int_to_float := toy_int_to_float;
  is_url := toy_is_url;
  download_cached_file := toy_download;
  os_path_isfile := toy_isfile;
  torch_load := toy_torch_load;
  load_state_dict := toy_load_state_dict;
  nn_Module_attr := λ _, None;
  torch_zeros := toy_zeros;
  normal_ := toy_normal;
  cast_data := λ _ _ d, d;
  nn_LayerNorm_forward := toy_layer_norm;
  create_eva_vit_g := λ _ _ _ _ _, toy_create "VisionTransformer" 1408;
  create_clip_vit_L := λ _ _ _ _, toy_create "CLIPVisionTransformer" 1024;
  get_num_layer := toy_get_num_layer;
  BertTokenizer_from_pretrained := λ _ _, toy_new "BertTokenizer";
  add_special_tokens := λ _ toks w, (inr (Z.of_nat (length toks)), w);
  BertConfig_from_pretrained := λ _ w, (inr toy_config, w);
  BertLMHeadModel_from_pretrained := λ _ _, toy_new "BertLMHeadModel";
  import_spacy := toy_import_spacy;
  spacy_load := λ _ _, toy_new "English";
|}.

Definition toy_world : ToyWorld := mkToyWorld ["/ckpt/model.pth"] 10 true.

Definition toy_self : Blip2Base := mkBlip2Base None None (Some None) [].

Definition toy_state : State ToyWorld := mkState toy_self toy_world [].

(** A model with a two-block encoder, a frozen class token, the layer norm
    and one weight of the Q-Former. *)
Definition toy_named_parameters : list (string * Param) :=
  [("visual_encoder.patch_embed.proj.weight",
    mkParam (mkTensor float32 [8; 3; 2; 2]%Z []) true);
   ("visual_encoder.cls_token",
    mkParam (mkTensor float32 [1; 1; 8]%Z []) false);
   ("visual_encoder.blocks.0.attn.qkv.weight",
    mkParam (mkTensor float32 [24; 8]%Z []) true);
   ("visual_encoder.blocks.1.mlp.fc1.bias",
    mkParam (mkTensor float32 [32]%Z []) true);
   ("visual_encoder.blocks.1.mlp.fc1.weight",
    mkParam (mkTensor float32 [32; 8]%Z []) true);
   ("ln_vision.weight", mkParam (mkTensor float32 [8]%Z []) true);
   ("Qformer.bert.embeddings.word_embeddings.weight",
    mkParam (mkTensor float32 [100; 8]%Z []) true)].

Definition toy_encoder : VisionEncoder :=
  mkVisionEncoder (Obj "VisionTransformer" 3) 8.

Definition toy_model : State ToyWorld :=
  mkState
    (mkBlip2Base (Some "eva_clip_g") (Some toy_encoder) (Some None)
       toy_named_parameters)
    toy_world [].

(** ** The rest of the file: __init__, device, maybe_autocast, _lemmatize,
    disabled_train *)

(** [torch.device]: a device type and an optional index.
    [torch.device("cpu")] has no index. *)
Record Device : Type := mkDevice {
  device_type : string;
  device_index : option Z;
}.

Global Instance Device_eq_dec : EqDecision Device.
Proof. solve_decision. Defined.

(** What [maybe_autocast] returns: [torch.cuda.amp.autocast(dtype=...)] or
    [contextlib.nullcontext()]. *)
Inductive ContextManager : Type :=
| autocast (dtype : dtype)
| nullcontext.

(** A token of a spacy document, as far as [_lemmatize] reads it. *)
Record Token : Type := mkToken {
  text : string;
  pos_ : string;
  lemma_ : string;
}.

(** Two more operations of the libraries: the [device] attribute of a
    parameter, and the call [nlp(answer)] of a spacy pipeline. *)
Class Runtime (World : Type) : Type := {
  param_device : Param -> Device;
  pipeline_call : PyObject -> string -> Lib World (list Token);
}.

(** [Blip2Base.__init__] only runs [nn.Module.__init__]: a module without
    parameters, on which none of the attributes of this file is assigned. *)
Definition __init__ : Blip2Base := mkBlip2Base None None None [].

(** [self.parameters()] *)
Definition parameters (this : Blip2Base) : list Param :=
  (named_parameters this).*2.

(** [disabled_train]; [mode] defaults to [True]. *)
Definition disabled_train {A} (this : A) (mode : option bool) : A := this.

(** [sep.join(words)] *)
Fixpoint py_join (sep : string) (words : list string) : string :=
  match words with
  | [] => ""
  | [w] => w
  | w :: ws => w +:+ sep +:+ py_join sep ws
  end.

(** The loop of [apply] over the tokens of a document. *)
Definition lemmatize_words (doc : list Token) : list string :=
  foldl
    (λ words token,
       if bool_decide (pos_ token ∈ ["NOUN"; "VERB"])
       then words ++ [lemma_ token]
       else words ++ [text token])
    [] doc.

Section Rest.
Context {World : Type} `{!Library World} `{!Runtime World}.

(** The property [device], on a subclass of [nn.Module]. *)
Definition device : M World Device :=
  module_property "device"
    (this <- get_self ;;
     first <- lift (py_index (parameters this) 0) ;;
     ret (param_device first)).

(** [maybe_autocast]; [dtype] defaults to [torch.float16]. *)
Definition maybe_autocast (dtype : option dtype) : M World ContextManager :=
  let dtype := default float16 dtype in
  current <- device ;;
  let enable_autocast := bool_decide (current ≠ mkDevice "cpu" None) in
  if enable_autocast then ret (autocast dtype) else ret nullcontext.

(** The inner function [apply] of [_lemmatize]. *)
Definition _lemmatize_apply (answer : string) : M World string :=
  nlp <- lemmatizer ;;
  doc <- match nlp with
         | Some pipeline => call (pipeline_call pipeline answer)
         | None => raise TypeError (ArgStr "'NoneType' object is not callable")
         end ;;
  let words := lemmatize_words doc in
  let answer := py_join " " words in
  ret answer.

(** [_lemmatize]: the list comprehension over [answers]. *)
Fixpoint _lemmatize (answers : list string) : M World (list string) :=
  match answers with
  | [] => ret []
  | answer :: rest =>
      first <- _lemmatize_apply answer ;;
      others <- _lemmatize rest ;;
      ret (first :: others)
  end.

End Rest.

(** The word [apply] keeps for a token: the lemma of a noun or a verb, the
    text of anything else. *)
Definition token_word (token : Token) : string :=
  if bool_decide (pos_ token ∈ ["NOUN"; "VERB"]) then lemma_ token
  else text token.

(** ** The groups [get_optimizer_params] is expected to return *)

(** The parameters that are not frozen, in the order of the model. *)
Definition trainable (named : list (string * Param)) : list (string * Param) :=
  filter (λ np, requires_grad np.2 = true) named.

(** The trainable parameters grouped under the name [k]. *)
Definition members {World : Type} `{!Library World} (enc : VisionEncoder)
    (k : string) (named : list (string * Param)) : list (string * Param) :=
  filter (λ np, key_of enc np.1 np.2 = k) (trainable named).

(** The group names, each once, in the order in which a trainable
    parameter first carries them. *)
Definition first_keys {World : Type} `{!Library World} (enc : VisionEncoder)
    (named : list (string * Param)) : list string :=
  reverse (remove_dups
             (reverse ((λ np, key_of enc np.1 np.2) <$> trainable named))).

(** The group of the name [k]: its members, with the weight decay and the
    scale of the first of them. *)
Definition expected_group {World : Type} `{!Library World} {P}
    (enc : VisionEncoder) (vit_num_layers : Z) (scale weight_decay : PyNum)
    (proj : string * Param -> P) (k : string) (named : list (string * Param))
  : option (ParamGroup P) :=
  match members enc k named with
  | [] => None
  | np :: _ =>
      Some (mkGroup (wd_of weight_decay (is_no_decay np.1 np.2))
              (proj <$> members enc k named)
              (scale_of vit_num_layers scale (layer_of enc np.1)))
  end.

Definition expected_groups {World : Type} `{!Library World}
    (enc : VisionEncoder) (vit_num_layers : Z) (scale weight_decay : PyNum)
    (named : list (string * Param)) : list (ParamGroup Param) :=
  omap (λ k, expected_group enc vit_num_layers scale weight_decay snd k named)
    (first_keys enc named).

(** The two dicts hold exactly the expected groups of the parameters
    [seen], under their names and in the expected order. *)
Definition groups_spec {World : Type} `{!Library World} (enc : VisionEncoder)
    (vit_num_layers : Z) (scale weight_decay : PyNum)
    (seen : list (string * Param))
    (groups : dict (ParamGroup string) * dict (ParamGroup Param)) : Prop :=
  (∀ k, dict_get groups.1 k
        = expected_group enc vit_num_layers scale weight_decay fst k seen)
  ∧ (∀ k, dict_get groups.2 k
          = expected_group enc vit_num_layers scale weight_decay snd k seen)
  ∧ groups.1.*1 = first_keys enc seen
  ∧ groups.2.*1 = first_keys enc seen.

(** ** The small library, continued *)

Definition toy_token (word : string) : Token :=
  if endswith "s" word
  then mkToken word "NOUN" (String.substring 0 (String.length word - 1) word)
  else mkToken word "DET" word.

Global Instance toy_runtime : Runtime ToyWorld := {|
  param_device := λ p,
    if decide (t_dtype (p_data p) = float16) then mkDevice "cuda" (Some 0%Z)
    else mkDevice "cpu" None;
  pipeline_call := λ _ answer w, (inr (toy_token <$> String.words answer), w);
|}.

(** A library in which things go wrong: checkpoints without ["model"], a
    configuration without attributes, an encoder that knows no layer, and
    a spacy whose model is not installed. *)
Definition toy_broken : Library ToyWorld := {|
  float_pow := toy_float_pow;
  int_to_float := toy_int_to_float;
  is_url := toy_is_url;
  download_cached_file := toy_download;
  os_path_isfile := toy_isfile;
  torch_load := λ _ _ w, (inr ∅, w);
  load_state_dict := toy_load_state_dict;
  nn_Module_attr := λ _, None;
  torch_zeros := toy_zeros;
  normal_ := toy_normal;
  cast_data := λ _ _ d, d;
  nn_LayerNorm_forward := toy_layer_norm;
  create_eva_vit_g := λ _ _ _ _ _, toy_create "VisionTransformer" 1408;
  create_clip_vit_L := λ _ _ _ _, toy_create "CLIPVisionTransformer" 1024;
  get_num_layer := λ _ var_name,
    match var_name with
    | None => inr 2%Z
    | Some v => inl (mkExn ValueError (ArgStr v))
    end;
  BertTokenizer_from_pretrained := λ _ _, toy_new "BertTokenizer";
  add_special_tokens := λ _ toks w, (inr (Z.of_nat (length toks)), w);
  BertConfig_from_pretrained := λ _ w, (inr ∅, w);
  BertLMHeadModel_from_pretrained := λ _ _, toy_new "BertLMHeadModel";
  import_spacy := toy_import_spacy;
  spacy_load := λ _ name w, (inl (mkExn OSError (ArgStr name)), w);
|}.

(** Every group of a layer already in [parameter_group_names] is the
    group of a layer with an entry in [lr_scales] (counting, as list
    indexing does, negative ids from the end). *)
Definition layers_in_table (lr_scales : list PyNum)
    (names : dict (ParamGroup string)) : Prop :=
  ∀ nd l,
    dict_contains names (group_key nd (Some l)) = true →
    (- Z.of_nat (length lr_scales) ≤ l < Z.of_nat (length lr_scales))%Z.

(** The small library with another [get_num_layer]. *)
Definition toy_with_layers
    (layers : VisionEncoder -> option string -> PyExn + Z)
  : Library ToyWorld := {|
  float_pow := toy_float_pow;
  int_to_float := toy_int_to_float;
  is_url := toy_is_url;
  download_cached_file := toy_download;
  os_path_isfile := toy_isfile;
  torch_load := toy_torch_load;
  load_state_dict := toy_load_state_dict;
  nn_Module_attr := λ _, None;
  torch_zeros := toy_zeros;
  normal_ := toy_normal;
  cast_data := λ _ _ d, d;
  nn_LayerNorm_forward := toy_layer_norm;
  create_eva_vit_g := λ _ _ _ _ _, toy_create "VisionTransformer" 1408;
  create_clip_vit_L := λ _ _ _ _, toy_create "CLIPVisionTransformer" 1024;
  get_num_layer := layers;
  BertTokenizer_from_pretrained := λ _ _, toy_new "BertTokenizer";
  add_special_tokens := λ _ toks w, (inr (Z.of_nat (length toks)), w);
  BertConfig_from_pretrained := λ _ w, (inr toy_config, w);
  BertLMHeadModel_from_pretrained := λ _ _, toy_new "BertLMHeadModel";
  import_spacy := toy_import_spacy;
  spacy_load := λ _ _, toy_new "English";
|}.

(** What a partly loaded parameter looks like in the small library. *)
Definition toy_loaded (named : string * Param) : string * Param :=
  (named.1,
   mkParam (mkTensor (t_dtype (p_data named.2)) (t_shape (p_data named.2))
              [1%float])
     (requires_grad named.2)).

(** The small library with a [load_state_dict] that finds a tensor of the
    wrong size: it has copied the tensors that fit when it raises. *)
Definition toy_mismatch : Library ToyWorld := {|
  float_pow := toy_float_pow;
  int_to_float := toy_int_to_float;
  is_url := toy_is_url;
  download_cached_file := toy_download;
  os_path_isfile := toy_isfile;
  torch_load := toy_torch_load;
  load_state_dict := λ _ _ m w,
    (inl (mkExn RuntimeError (ArgStr "size mismatch")),
     mkBlip2Base (vit_name m) (visual_encoder m) (_lemmatizer m)
       (toy_loaded <$> named_parameters m),
     w);
  nn_Module_attr := λ _, None;
  torch_zeros := toy_zeros;
  normal_ := toy_normal;
  cast_data := λ _ _ d, d;
  nn_LayerNorm_forward := toy_layer_norm;
  create_eva_vit_g := λ _ _ _ _ _, toy_create "VisionTransformer" 1408;
  create_clip_vit_L := λ _ _ _ _, toy_create "CLIPVisionTransformer" 1024;
  get_num_layer := toy_get_num_layer;
  BertTokenizer_from_pretrained := λ _ _, toy_new "BertTokenizer";
  add_special_tokens := λ _ toks w, (inr (Z.of_nat (length toks)), w);
  BertConfig_from_pretrained := λ _ w, (inr toy_config, w);
  BertLMHeadModel_from_pretrained := λ _ _, toy_new "BertLMHeadModel";
  import_spacy := toy_import_spacy;
  spacy_load := λ _ _, toy_new "English";
|}.


(** An encoder of two blocks that places every parameter in layer 7. *)
Definition toy_layer_7 (enc : VisionEncoder) (var_name : option string)
  : PyExn + Z :=
  match var_name with
  | None => inr 2%Z
  | Some _ => inr 7%Z
  end.

(** * Properties *)

(** ** Python helpers *)

Example py_in_example :
  py_in "visual_encoder" "ln_visual_encoder.weight" = true
  ∧ py_in "visual_encoder" "Qformer.bert.weight" = false.
Proof. split; reflexivity. Qed.

Example endswith_example :
  endswith ".bias" "ln_vision.bias" = true
  ∧ endswith ".bias" "ln_vision.bias_k" = false.
Proof. split; reflexivity. Qed.

Example py_replace_example :
  py_replace "visual_encoder." "" "visual_encoder.blocks.0.attn.proj.weight"
  = "blocks.0.attn.proj.weight"
  ∧ py_replace "aa" "b" "aaaaa" = "bba"
  ∧ py_replace "" "-" "ab" = "-a-b-".
Proof. repeat split; reflexivity. Qed.

Example py_index_example :
  py_index [10; 20; 30]%Z 1 = Return 20%Z
  ∧ py_index [10; 20; 30]%Z (-1) = Return 30%Z
  ∧ py_index [10; 20; 30]%Z 3
    = Raise Here (mkExn IndexError (ArgStr "list index out of range")).
Proof. repeat split; reflexivity. Qed.

Example issubclass_example :
  issubclass ModuleNotFoundError ImportError = true
  ∧ issubclass OSError ImportError = false
  ∧ issubclass SystemExit Exception = false.
Proof. repeat split; reflexivity. Qed.

(** ** init_vision_encoder *)

Section InitVisionEncoder.
Context {World : Type} `{!Library World}.

Lemma accepted_model_names (model_name : string) :
  model_name ∈ ["eva_clip_g"; "eva2_clip_L"; "clip_L"]
  ↔ model_name = "eva_clip_g" ∨ model_name = "eva2_clip_L"
    ∨ model_name = "clip_L".
Proof. rewrite !elem_of_cons, elem_of_nil. tauto. Qed.

(** C6: a [model_name] outside the three accepted names fails the
    assertion; for ["eva_clip_g"] and ["clip_L"] the encoder is built by
    [create_eva_vit_g], respectively [create_clip_vit_L], the name is
    stored in [self.vit_name] (the instance afterwards has
    [vit_name = model_name] and its other attributes as before), and the
    encoder is returned together with a [LayerNorm] over its
    [num_features].  An exception of the constructor escapes and leaves
    [self] as it was. *)
Theorem init_vision_encoder_spec (model_name : string) (img_size : Z)
    (drop_path_rate : PyNum) (use_grad_checkpoint : bool)
    (precision : string) (model_root_dir : option string)
    (st : State World) :
  let run :=
    init_vision_encoder model_name img_size drop_path_rate
      use_grad_checkpoint precision model_root_dir st in
  let built (r : (PyExn + VisionEncoder) * World) :=
    match r with
    | (inr enc, w) =>
        run = (Return (enc, mkLayerNorm (num_features enc)),
               mkState
                 (mkBlip2Base (Some model_name) (visual_encoder (self st))
                    (_lemmatizer (self st)) (named_parameters (self st)))
                 w (log st))
        ∧ vit_name (self run.2) = Some model_name
    | (inl e, w) => run = (Raise Callee e, mkState (self st) w (log st))
    end in
  (model_name ∉ ["eva_clip_g"; "eva2_clip_L"; "clip_L"] →
   run = (Raise Here
            (mkExn AssertionError
               (ArgStr "vit model must be eva_clip_g, eva2_clip_L or clip_L")),
          st))
  ∧ (model_name = "eva_clip_g" →
     built (create_eva_vit_g img_size drop_path_rate use_grad_checkpoint
              precision (default "models" model_root_dir) (world st)))
  ∧ (model_name = "clip_L" →
     built (create_clip_vit_L img_size use_grad_checkpoint precision
              (default "models" model_root_dir) (world st))).
Proof.
  intros run built. subst run built. unfold init_vision_encoder.
  split; [|split].
  - intros Hout. unfold bind, py_assert.
    rewrite bool_decide_eq_false_2 by done. reflexivity.
  - intros ->. unfold bind, py_assert, call, ret, read_local, setattr. simpl.
    destruct (create_eva_vit_g _ _ _ _ _ _) as [[e|enc] w];
      [reflexivity | split; reflexivity].
  - intros ->. unfold bind, py_assert, call, ret, read_local, setattr. simpl.
    destruct (create_clip_vit_L _ _ _ _ _) as [[e|enc] w];
      [reflexivity | split; reflexivity].
Qed.

(** C8: ["eva2_clip_L"] passes the assertion, no branch assigns
    [visual_encoder], and reading it raises [UnboundLocalError]; no
    library is called and the state is unchanged. *)
Theorem init_vision_encoder_eva2_clip_L (img_size : Z)
    (drop_path_rate : PyNum) (use_grad_checkpoint : bool)
    (precision : string) (model_root_dir : option string)
    (st : State World) :
  "eva2_clip_L" ∈ ["eva_clip_g"; "eva2_clip_L"; "clip_L"]
  ∧ init_vision_encoder "eva2_clip_L" img_size drop_path_rate
      use_grad_checkpoint precision model_root_dir st
    = (Raise Here (mkExn UnboundLocalError (ArgStr "visual_encoder")), st).
Proof.
  split; [apply accepted_model_names; tauto | reflexivity].
Qed.
End InitVisionEncoder.

Example init_vision_encoder_runs :
  init_vision_encoder "clip_L" 224 (PyInt 0) false "fp16" None toy_state
  = (Return (mkVisionEncoder (Obj "CLIPVisionTransformer" 10) 1024,
             mkLayerNorm 1024),
     mkState (mkBlip2Base (Some "clip_L") None (Some None) [])
       (mkToyWorld ["/ckpt/model.pth"] 11 true) [])
  ∧ ∃ e,
      init_vision_encoder "vit_b" 224 (PyInt 0) false "fp16" None toy_state
      = (Raise Here (mkExn AssertionError e), toy_state).
Proof. split; [reflexivity | eexists; reflexivity]. Qed.

(** ** load_from_pretrained *)

Section LoadFromPretrained.
Context {World : Type} `{!Library World}.

End LoadFromPretrained.


Example load_from_pretrained_runs :
  load_from_pretrained "/ckpt/model.pth" toy_state
  = (Return (Obj "_IncompatibleKeys" 10),
     mkState toy_self (mkToyWorld ["/ckpt/model.pth"] 11 true)
       [(INFO, "load checkpoint from /ckpt/model.pth")])
  ∧ load_from_pretrained "https://host/blip2.pth" toy_state
    = (Return (Obj "_IncompatibleKeys" 10),
       mkState toy_self
         (mkToyWorld ["/cache/https://host/blip2.pth"; "/ckpt/model.pth"] 11
            true)
         [(INFO, "load checkpoint from https://host/blip2.pth")])
  ∧ load_from_pretrained "/ckpt/missing.pth" toy_state
    = (Raise Here
         (mkExn RuntimeError (ArgStr "checkpoint url or path is invalid")),
       toy_state).
Proof. repeat split; reflexivity. Qed.

(** ** lemmatizer *)

Section Lemmatizer.
Context {World : Type} `{!Library World}.

Example lemmatizer_message_length : String.length lemmatizer_message = 288.
Proof. reflexivity. Qed.

Lemma lemmatizer_first_access (st : State World) :
  _lemmatizer (self st) = Some None →
  lemmatizer st
  = module_property "lemmatizer"
      (bind (try_except
               (bind (call import_spacy) (λ spacy,
                bind (call (spacy_load spacy "en_core_web_sm")) (λ nlp,
                setattr (set_lemmatizer (Some nlp)))))
               ImportError
               (bind (logging ERROR lemmatizer_message) (λ _, py_exit 1)))
         (λ _, getattr "_lemmatizer" _lemmatizer)) st.
Proof.
  intros Hnone. unfold lemmatizer, module_property, lemmatizer_getter.
  unfold bind at 1 3, getattr at 1 3. rewrite Hnone. reflexivity.
Qed.


Lemma lemmatizer_stored (st : State World) (nlp : PyObject) :
  _lemmatizer (self st) = Some (Some nlp) →
  lemmatizer st = (Return (Some nlp), st).
Proof.
  intros Hset.
  unfold lemmatizer, module_property, lemmatizer_getter, bind, getattr, ret.
  rewrite Hset. simpl. rewrite Hset. reflexivity.
Qed.

Lemma lemmatizer_loads (st : State World) (spacy nlp : PyObject)
    (w w' : World) :
  _lemmatizer (self st) = Some None →
  import_spacy (world st) = (inr spacy, w) →
  spacy_load spacy "en_core_web_sm" w = (inr nlp, w') →
  lemmatizer st
  = (Return (Some nlp),
     mkState (set_lemmatizer (Some nlp) (self st)) w' (log st)).
Proof.
  intros Hnone Himp Hload. rewrite lemmatizer_first_access by done.
  unfold module_property, bind, try_except, call, setattr, getattr.
  rewrite Himp. simpl. rewrite Hload. reflexivity.
Qed.

Lemma lemmatizer_accesses_stored (n : nat) (st : State World)
    (nlp : PyObject) :
  _lemmatizer (self st) = Some (Some nlp) →
  lemmatizer_accesses n st = (Return (replicate n (Some nlp)), st).
Proof.
  intros Hset. induction n as [|n IH]; [reflexivity|].
  simpl. unfold bind. rewrite (lemmatizer_stored st nlp Hset), IH.
  reflexivity.
Qed.

(** C4: the property is a lazily initialized singleton.  An access that
    finds an object stored returns it and changes nothing: neither the
    field nor the world, so spacy is not touched.  The access that finds
    [None] imports spacy, loads the model and stores it; from then on
    any number of accesses return that same object and leave the state
    as the first access left it. *)
Theorem lemmatizer_singleton (st : State World) :
  (∀ nlp,
     _lemmatizer (self st) = Some (Some nlp) →
     lemmatizer st = (Return (Some nlp), st))
  ∧ (∀ spacy nlp w w',
       _lemmatizer (self st) = Some None →
       import_spacy (world st) = (inr spacy, w) →
       spacy_load spacy "en_core_web_sm" w = (inr nlp, w') →
       let st1 := mkState (set_lemmatizer (Some nlp) (self st)) w' (log st) in
       lemmatizer st = (Return (Some nlp), st1)
       ∧ _lemmatizer (self st1) = Some (Some nlp)
       ∧ ∀ n, lemmatizer_accesses n st1
              = (Return (replicate n (Some nlp)), st1)).
Proof.
  split.
  - intros nlp. apply lemmatizer_stored.
  - intros spacy nlp w w' Hnone Himp Hload st1. subst st1.
    split; [by eapply lemmatizer_loads|]. split; [reflexivity|].
    intros n. by apply lemmatizer_accesses_stored.
Qed.
End Lemmatizer.



Example lemmatizer_runs :
  lemmatizer_accesses 3 toy_state
  = (Return (replicate 3 (Some (Obj "English" 10))),
     mkState (set_lemmatizer (Some (Obj "English" 10)) toy_self)
       (mkToyWorld ["/ckpt/model.pth"] 11 true) []).
Proof. reflexivity. Qed.

(** Without the attribute (a bare [Blip2Base] never assigns it), the access
    fails before anything is imported; the [AttributeError] that reaches
    the caller is the one [nn.Module] raises for the property. *)
Example lemmatizer_unset :
  lemmatizer (mkState (mkBlip2Base None None None []) toy_world [])
  = (Raise Here (mkExn AttributeError (ArgStr "lemmatizer")),
     mkState (mkBlip2Base None None None []) toy_world []).
Proof. reflexivity. Qed.

(** ** init_tokenizer *)

Section InitTokenizer.
Context {World : Type} `{!Library World}.

(** C7: the tokenizer is fetched with
    [BertTokenizer.from_pretrained("bert-base-uncased", truncation_side=...)],
    ["[DEC]"] is registered on it as [bos_token] through
    [add_special_tokens], and that tokenizer is returned, in the world
    left by the registration.  Without an argument the truncation side
    is ["right"]. *)
Theorem init_tokenizer_spec (truncation_side : option string)
    (st : State World) (tokenizer : PyObject) (added : Z) (w1 w2 : World)
    (Hfetch : BertTokenizer_from_pretrained "bert-base-uncased"
                (default "right" truncation_side) (world st)
              = (inr tokenizer, w1))
    (Hadd : add_special_tokens tokenizer [("bos_token", "[DEC]")] w1
            = (inr added, w2)) :
  init_tokenizer truncation_side st
  = (Return tokenizer, mkState (self st) w2 (log st)).
Proof.
  unfold init_tokenizer, bind, call, ret. rewrite Hfetch. simpl.
  rewrite Hadd. reflexivity.
Qed.

(** A failure of either call escapes as it is. *)
Lemma init_tokenizer_raises (truncation_side : option string)
    (st : State World) (o : Origin) (e : PyExn) (st' : State World) :
  init_tokenizer truncation_side st = (Raise o e, st') →
  o = Callee.
Proof.
  unfold init_tokenizer, bind, call, ret.
  destruct (BertTokenizer_from_pretrained _ _ _) as [[e1|tok] w1]; simpl;
    [congruence|].
  destruct (add_special_tokens _ _ _) as [[e2|n] w2]; simpl; congruence.
Qed.
End InitTokenizer.

Lemma init_tokenizer_spec_witness :
  init_tokenizer (Some "left") toy_state
  = (Return (Obj "BertTokenizer" 10),
     mkState toy_self (mkToyWorld ["/ckpt/model.pth"] 11 true) []).
Proof.
  apply (init_tokenizer_spec (Some "left") toy_state (Obj "BertTokenizer" 10) 1
           (mkToyWorld ["/ckpt/model.pth"] 11 true)
           (mkToyWorld ["/ckpt/model.pth"] 11 true));
    reflexivity.
Defined.

(** ** init_Qformer *)

Section InitQformer.
Context {World : Type} `{!Library World}.

Lemma Qformer_config_attrs (pretrained : gmap string PyVal)
    (num_query_token vision_width cross_attention_freq : Z) :
  let config :=
    Qformer_config pretrained num_query_token vision_width
      cross_attention_freq in
  config !! "add_cross_attention" = Some (VBool true)
  ∧ config !! "cross_attention_freq"
    = Some (VNum (PyInt cross_attention_freq))
  ∧ config !! "query_length" = Some (VNum (PyInt num_query_token))
  ∧ config !! "encoder_width" = Some (VNum (PyInt vision_width))
  ∧ config !! "hidden_size" = pretrained !! "hidden_size"
  ∧ config !! "initializer_range" = pretrained !! "initializer_range".
Proof.
  unfold Qformer_config. repeat split; by simplify_map_eq.
Qed.

(** C5: when the pretrained configuration and model are fetched, the
    configuration carries an integer [hidden_size] and an
    [initializer_range], [torch.zeros] yields a tensor of the requested
    size and [normal_] fills it in place (keeping its shape),
    [init_Qformer] returns the model built from a configuration with
    [add_cross_attention = True], the given [cross_attention_freq]
    ([2] by default) and [query_length], and
    [encoder_width = vision_width], together with a parameter that
    requires gradients, has shape [(1, num_query_token, hidden_size)] and
    holds the values drawn by [normal_(mean=0.0, std=initializer_range)]. *)
Theorem init_Qformer_spec (num_query_token vision_width : Z)
    (cross_attention_freq : option Z) (st : State World)
    (pretrained : gmap string PyVal) (hidden_size : Z) (std : PyVal)
    (Qformer : PyObject) (zeros data : Tensor) (w1 w2 w3 : World) :
  let config :=
    Qformer_config pretrained num_query_token vision_width
      (default 2%Z cross_attention_freq) in
  BertConfig_from_pretrained "bert-base-uncased" (world st)
  = (inr pretrained, w1) →
  pretrained !! "hidden_size" = Some (VNum (PyInt hidden_size)) →
  pretrained !! "initializer_range" = Some std →
  BertLMHeadModel_from_pretrained "bert-base-uncased" config w1
  = (inr Qformer, w2) →
  torch_zeros [VNum (PyInt 1); VNum (PyInt num_query_token);
               VNum (PyInt hidden_size)] = inr zeros →
  t_shape zeros = [1; num_query_token; hidden_size]%Z →
  normal_ zeros (PyFloat 0) std w2 = (inr data, w3) →
  t_shape data = t_shape zeros →
  init_Qformer num_query_token vision_width cross_attention_freq st
  = (Return (Qformer, mkParam data true), mkState (self st) w3 (log st))
  ∧ config !! "add_cross_attention" = Some (VBool true)
  ∧ config !! "cross_attention_freq"
    = Some (VNum (PyInt (default 2%Z cross_attention_freq)))
  ∧ config !! "query_length" = Some (VNum (PyInt num_query_token))
  ∧ config !! "encoder_width" = Some (VNum (PyInt vision_width))
  ∧ shape (mkParam data true) = [1; num_query_token; hidden_size]%Z.
Proof.
  intros config Hcfg Hhs Hstd Hmodel Hzeros Hzshape Hnormal Hnshape.
  destruct (Qformer_config_attrs pretrained num_query_token vision_width
              (default 2%Z cross_attention_freq))
    as (Hadd & Hfreq & Hlen & Hwidth & Hhs' & Hstd').
  fold config in Hadd, Hfreq, Hlen, Hwidth, Hhs', Hstd'.
  split; [|repeat split; try done; unfold shape; simpl; congruence].
  unfold init_Qformer, bind, call. rewrite Hcfg. simpl.
  fold (Qformer_config pretrained num_query_token vision_width
          (default 2%Z cross_attention_freq)).
  fold config. rewrite Hmodel. simpl.
  unfold config_getattr. rewrite Hhs', Hhs. simpl.
  unfold lift. rewrite Hzeros. simpl.
  rewrite Hstd', Hstd. simpl. rewrite Hnormal. reflexivity.
Qed.
End InitQformer.

Lemma init_Qformer_spec_witness :
  ∃ data,
    init_Qformer 32 1408 None toy_state
    = (Return (Obj "BertLMHeadModel" 10, mkParam data true),
       mkState toy_self (mkToyWorld ["/ckpt/model.pth"] 12 true) [])
    ∧ shape (mkParam data true) = [1; 32; 768]%Z.
Proof.
  eexists.
  refine (let H := init_Qformer_spec 32 1408 None toy_state toy_config 768
                     (VNum (PyFloat 0x1.47ae147ae147bp-6))
                     (Obj "BertLMHeadModel" 10)
                     (mkTensor float32 [1; 32; 768]%Z
                        (replicate (Z.to_nat (1 * (32 * (768 * 1)))) 0%float))
                     _
                     (mkToyWorld ["/ckpt/model.pth"] 10 true)
                     (mkToyWorld ["/ckpt/model.pth"] 11 true)
                     (mkToyWorld ["/ckpt/model.pth"] 12 true)
                     eq_refl eq_refl eq_refl eq_refl eq_refl eq_refl eq_refl
                     eq_refl in _).
  destruct H as (Hrun & _ & _ & _ & _ & Hshape).
  split; [exact Hrun | exact Hshape].
Defined.

(** ** LayerNorm.forward *)

Section LayerNormForward.
Context {World : Type} `{!Library World}.

Lemma tensor_type_dtype (x : Tensor) (d : dtype) :
  t_dtype (tensor_type x d) = d.
Proof. reflexivity. Qed.

(** C10: [nn.LayerNorm.forward] is applied to the input cast to
    [float32]; what it returns is cast back, so the result has the dtype
    (and the norm's output shape) of the input whatever that dtype is.
    The only exceptions are those of [nn.LayerNorm.forward] itself. *)
Theorem forward_keeps_dtype (this : LayerNorm) (x : Tensor) :
  t_dtype (tensor_type x float32) = float32
  ∧ match nn_LayerNorm_forward this (tensor_type x float32) with
    | inr ret =>
        forward this x = Return (tensor_type ret (t_dtype x))
        ∧ t_dtype (tensor_type ret (t_dtype x)) = t_dtype x
    | inl e => forward this x = Raise Callee e
    end.
Proof.
  split; [reflexivity|]. unfold forward.
  destruct (nn_LayerNorm_forward _ _) as [e|ret]; simpl; auto.
Qed.

(** Read from the result: whatever [forward] returns has the input's
    dtype. *)
Corollary forward_returns_dtype (this : LayerNorm) (x ret : Tensor) :
  forward this x = Return ret → t_dtype ret = t_dtype x.
Proof.
  unfold forward.
  destruct (nn_LayerNorm_forward _ _) as [e|r]; simpl; [done|].
  by intros [= <-].
Qed.
End LayerNormForward.

Example forward_runs :
  forward (mkLayerNorm 4) (mkTensor float16 [2; 4]%Z [])
  = Return (mkTensor float16 [2; 4]%Z [])
  ∧ forward (mkLayerNorm 4) (mkTensor float16 [2; 3]%Z [])
    = Raise Callee (mkExn RuntimeError (ArgStr "layer_norm")).
Proof. split; reflexivity. Qed.

(** ** get_optimizer_params: the fallback *)

Section GetOptimizerParamsSuper.
Context {World : Type} `{!Library World}.

(** C9: when [nn.Module] has no attribute [get_optimizer_params], every
    call on an instance whose [vit_name] is not ["eva_clip_g"] raises
    [AttributeError], whatever [weight_decay] and [lr_scale] are, and
    changes nothing: with [vit_name] set, on [super().get_optimizer_params];
    with [vit_name] never assigned, already on [self.vit_name]. *)
Theorem get_optimizer_params_super (weight_decay : PyNum)
    (lr_scale : option PyNum) (st : State World)
    (Hbase : nn_Module_attr "get_optimizer_params" = None)
    (Hname : vit_name (self st) ≠ Some "eva_clip_g") :
  get_optimizer_params weight_decay lr_scale st
  = (Raise Here
       (mkExn AttributeError
          (ArgStr (match vit_name (self st) with
                   | Some _ => "get_optimizer_params"
                   | None => "vit_name"
                   end))),
     st).
Proof.
  unfold get_optimizer_params, bind, getattr.
  destruct (vit_name (self st)) as [name|] eqn:Hvit; [|reflexivity].
  destruct (String.eqb name "eva_clip_g") eqn:Heq.
  - apply String.eqb_eq in Heq. congruence.
  - unfold super_getattr. rewrite Hbase. reflexivity.
Qed.
End GetOptimizerParamsSuper.

Lemma get_optimizer_params_super_witness :
  get_optimizer_params (PyFloat 0.5) None
    (mkState (mkBlip2Base (Some "clip_L") None (Some None) []) toy_world [])
  = (Raise Here (mkExn AttributeError (ArgStr "get_optimizer_params")),
     mkState (mkBlip2Base (Some "clip_L") None (Some None) []) toy_world []).
Proof.
  apply (get_optimizer_params_super (World := ToyWorld) (PyFloat 0.5) None
           (mkState (mkBlip2Base (Some "clip_L") None (Some None) [])
              toy_world [])).
  - reflexivity.
  - discriminate.
Defined.

(** ** get_optimizer_params: layer-wise learning-rate decay *)

(** *** Group names are unambiguous *)

Local Abbreviation chars := String.list_ascii_of_string.

Lemma chars_app (a b : string) :
  chars (a +:+ b)
  = chars a ++ chars b.
Proof. induction a as [|c a IH]; simpl; [done | by rewrite IH]. Qed.

Lemma chars_inj (a b : string) :
  chars a = chars b → a = b.
Proof.
  intros Heq. rewrite <-(String.string_of_list_ascii_of_string a),
    <-(String.string_of_list_ascii_of_string b). by rewrite Heq.
Qed.

(** [pretty_N_go] only puts characters in front of its accumulator. *)
Lemma pretty_N_go_suffix (x : N) (s : string) :
  ∃ t, pretty_N_go x s = t +:+ s.
Proof.
  revert s. induction (N.lt_wf_0 x) as [x _ IH]; intros s.
  assert (x = 0 ∨ 0 < x)%N as [->|Hpos] by lia.
  - exists "". by rewrite pretty_N_go_0.
  - rewrite pretty_N_go_step by done.
    destruct (IH (x `div` 10)%N (N.div_lt x 10 Hpos eq_refl)
                (String (pretty_N_char (x `mod` 10)) s)) as [t Ht].
    exists (t +:+ String (pretty_N_char (x `mod` 10)) "").
    rewrite Ht. apply chars_inj.
    rewrite !chars_app. simpl. by rewrite <-app_assoc.
Qed.

(** The decimal form of an integer ends with a digit. *)
Lemma pretty_Z_last (z : Z) :
  ∃ n, last (chars (pretty z)) = Some (pretty_N_char n).
Proof.
  assert (∀ p : positive, ∃ n,
            last (chars (pretty (N.pos p)))
            = Some (pretty_N_char n)) as Hpos.
  { intros p. unfold pretty, pretty_N. rewrite decide_False by done.
    rewrite pretty_N_go_step by lia.
    destruct (pretty_N_go_suffix (N.pos p `div` 10)
                (String (pretty_N_char (N.pos p `mod` 10)) "")) as [t ->].
    exists (N.pos p `mod` 10)%N.
    rewrite chars_app. simpl. apply last_snoc. }
  destruct z as [|p|p].
  - by exists 0%N.
  - apply Hpos.
  - destruct (Hpos p) as [n Hn]. exists n.
    change (pretty (Z.neg p)) with ("-" +:+ pretty (N.pos p)).
    rewrite chars_app, last_app, Hn. done.
Qed.

Lemma pretty_N_char_not_o (n : N) : pretty_N_char n ≠ "o"%char.
Proof. unfold pretty_N_char. by repeat case_match. Qed.

Lemma group_key_inj (nd nd' : bool) (layer layer' : option Z) :
  group_key nd layer = group_key nd' layer' → nd = nd' ∧ layer = layer'.
Proof.
  assert (∀ l l' : Z,
            pretty l +:+ "_no_decay" ≠ pretty l' +:+ "_decay") as Hmixed.
  { intros l l' Heq. apply (f_equal chars) in Heq.
    rewrite !chars_app in Heq.
    change (chars "_no_decay")
      with (chars "_no" ++ chars "_decay") in Heq.
    rewrite app_assoc in Heq. apply app_inv_tail in Heq.
    destruct (pretty_Z_last l') as [n Hlast].
    rewrite <-Heq, last_app in Hlast. simpl in Hlast.
    injection Hlast as Hlast. by eapply pretty_N_char_not_o. }
  unfold group_key. destruct layer as [l|], layer' as [l'|].
  - intros Heq. apply (inj (String.app "vit_layer_")) in Heq.
    destruct nd, nd'.
    + apply (f_equal chars) in Heq.
      rewrite !chars_app in Heq. apply app_inv_tail in Heq.
      apply chars_inj, (inj pretty) in Heq. by subst.
    + by destruct (Hmixed l l').
    + by destruct (Hmixed l' l).
    + apply (f_equal chars) in Heq.
      rewrite !chars_app in Heq. apply app_inv_tail in Heq.
      apply chars_inj, (inj pretty) in Heq. by subst.
  - destruct nd'; discriminate.
  - destruct nd; discriminate.
  - destruct nd, nd'; done.
Qed.

(** *** Dicts *)

Section Dict.
Context {V : Type}.
Implicit Types (d : dict V) (k : string) (v : V).

Lemma dict_get_set_eq d k v : dict_get (dict_set d k v) k = Some v.
Proof.
  induction d as [|[k' v'] d IH]; simpl.
  - by rewrite decide_True.
  - destruct (decide (k' = k)) as [->|Hne]; simpl.
    + by rewrite decide_True.
    + by rewrite decide_False.
Qed.

Lemma dict_get_set_ne d k k' v :
  k ≠ k' → dict_get (dict_set d k v) k' = dict_get d k'.
Proof.
  intros Hne. induction d as [|[k0 v0] d IH]; simpl.
  - by rewrite decide_False.
  - destruct (decide (k0 = k)) as [->|Hne0]; simpl.
    + by rewrite !decide_False.
    + destruct (decide (k0 = k')); done.
Qed.

Lemma dict_set_set d k v v' :
  dict_set (dict_set d k v) k v' = dict_set d k v'.
Proof.
  induction d as [|[k0 v0] d IH]; simpl.
  - by rewrite decide_True.
  - destruct (decide (k0 = k)) as [->|Hne0]; simpl.
    + by rewrite decide_True.
    + rewrite decide_False by done. by rewrite IH.
Qed.

Lemma dict_contains_get d k :
  dict_contains d k = true ↔ is_Some (dict_get d k).
Proof.
  unfold dict_contains. rewrite bool_decide_eq_true.
  induction d as [|[k0 v0] d IH]; simpl.
  - rewrite elem_of_nil. split; [done | by intros [? ?]].
  - rewrite elem_of_cons. destruct (decide (k0 = k)) as [->|Hne].
    + split; [by eexists | by left].
    + rewrite <-IH. split; [intros [?|?]; [congruence | done] | by right].
Qed.

Lemma dict_get_values d k v : dict_get d k = Some v → v ∈ dict_values d.
Proof.
  unfold dict_values. induction d as [|[k0 v0] d IH]; simpl; [done|].
  destruct (decide (k0 = k)).
  - intros [= ->]. apply elem_of_cons. by left.
  - intros Hget. apply elem_of_cons. right. by apply IH.
Qed.

Lemma dict_item_get d k v : dict_get d k = Some v → dict_item d k = Return v.
Proof. unfold dict_item. by intros ->. Qed.
End Dict.

(** *** The table of learning-rate scales *)

Lemma py_range_lookup (n i : Z) :
  (0 ≤ i < n)%Z → py_range n !! Z.to_nat i = Some i.
Proof.
  intros Hi. unfold py_range. rewrite list_lookup_fmap, lookup_seq_lt by lia.
  simpl. f_equal. lia.
Qed.

Lemma py_range_length (n : Z) : length (py_range n) = Z.to_nat n.
Proof. unfold py_range. by rewrite length_fmap, length_seq. Qed.

Lemma py_index_fmap_range {A} (f : Z → A) (n i : Z) :
  (0 ≤ i < n)%Z → py_index (f <$> py_range n) i = Return (f i).
Proof.
  intros Hi. unfold py_index. cbv zeta.
  rewrite length_fmap, py_range_length.
  destruct (decide (i < 0)%Z); [lia|].
  destruct (decide (0 ≤ i < Z.of_nat (Z.to_nat n))%Z); [|lia].
  by rewrite list_lookup_fmap, py_range_lookup.
Qed.

Lemma py_range_elem (n i : Z) : i ∈ py_range n → (0 ≤ i < n)%Z.
Proof.
  unfold py_range. intros Hin.
  apply list_elem_of_fmap in Hin as (k & -> & Hk).
  apply elem_of_seq in Hk. lia.
Qed.

Lemma py_listcomp_total {A B} (f : A → Outcome B) (g : A → B) (l : list A) :
  (∀ x, x ∈ l → f x = Return (g x)) →
  py_listcomp f l = Return (g <$> l).
Proof.
  induction l as [|x l IH]; intros Hf; [done|].
  cbn [py_listcomp]. rewrite (Hf x) by (apply elem_of_cons; by left).
  cbn [obind]. rewrite IH; [done|].
  intros y Hy. apply Hf, elem_of_cons. by right.
Qed.

Lemma py_listcomp_length {A B} (f : A → Outcome B) (l : list A)
    (ys : list B) :
  py_listcomp f l = Return ys → length ys = length l.
Proof.
  revert ys. induction l as [|x l IH]; intros ys; cbn [py_listcomp].
  - by intros [= <-].
  - destruct (f x) as [y|]; cbn [obind]; [|done].
    destruct (py_listcomp f l) as [ys'|]; cbn [obind]; [|done].
    intros [= <-]. cbn [length]. f_equal. by apply IH.
Qed.

Section Powers.
Context {World : Type} `{!Library World}.

Lemma py_pow_int (z k : Z) :
  (0 ≤ k)%Z → py_pow (PyInt z) k = Return (PyInt (z ^ k)).
Proof. intros Hk. unfold py_pow. by rewrite decide_True. Qed.

Lemma power_of_pow (scale p : PyNum) (e : Z) :
  py_pow scale e = Return p → power_of scale e = p.
Proof. unfold power_of. by intros ->. Qed.

(** Where every power the table needs is computed, the table is the list
    of these powers. *)
Lemma lr_scales_computed (scale : PyNum) (vit_num_layers : Z) :
  (∀ k, (0 ≤ k ≤ vit_num_layers + 1)%Z → ∃ p, py_pow scale k = Return p) →
  py_listcomp (λ i, py_pow scale (vit_num_layers + 1 - i))
    (py_range (vit_num_layers + 2))
  = Return ((λ i, power_of scale (vit_num_layers + 1 - i))
              <$> py_range (vit_num_layers + 2)).
Proof.
  intros Hpow. apply py_listcomp_total. intros i Hi.
  apply py_range_elem in Hi.
  destruct (Hpow (vit_num_layers + 1 - i)%Z) as [p Hp]; [lia|].
  by rewrite Hp, (power_of_pow _ p).
Qed.
End Powers.

(** *** The loop over the named parameters *)

Section GetOptimizerParams.
Context {World : Type} `{!Library World}.
Variables (enc : VisionEncoder) (vit_num_layers : Z).
Variables (scale weight_decay : PyNum).

Local Abbreviation groups_ok :=
  (groups_inv enc vit_num_layers scale weight_decay).
Local Abbreviation upsert_at := (upsert vit_num_layers scale weight_decay).
Local Abbreviation scale_at := (scale_of vit_num_layers scale).
Local Abbreviation known := (known_layer enc vit_num_layers).

Lemma upsert_get_eq {P} (d : dict (ParamGroup P)) k nd layer (x : P) :
  dict_get (upsert_at d k nd layer x) k
  = Some match dict_get d k with
         | Some g =>
             mkGroup (group_weight_decay g) (group_params g ++ [x])
               (group_lr_scale g)
         | None => mkGroup (wd_of weight_decay nd) [x] (scale_at layer)
         end.
Proof. apply dict_get_set_eq. Qed.

Lemma upsert_get_ne {P} (d : dict (ParamGroup P)) k k' nd layer (x : P) :
  k ≠ k' → dict_get (upsert_at d k nd layer x) k' = dict_get d k'.
Proof. apply dict_get_set_ne. Qed.

Let lr_scales : list PyNum :=
  (λ i, power_of scale (vit_num_layers + 1 - i)) <$>
    py_range (vit_num_layers + 2).

Lemma add_parameter_frozen groups name param :
  requires_grad param = false →
  add_parameter enc lr_scales weight_decay groups (name, param)
  = Return groups.
Proof. intros Hgrad. unfold add_parameter. simpl. by rewrite Hgrad. Qed.

Lemma layer_of_known name :
  known name →
  (if py_in "visual_encoder" name
   then l <- of_lib (get_num_layer enc
                       (Some (py_replace "visual_encoder." "" name))) ;;
        Return (Some l)
   else Return None)%O
  = Return (layer_of enc name)
  ∧ match layer_of enc name with
    | Some l => (0 ≤ l ≤ vit_num_layers + 1)%Z
    | None => True
    end.
Proof.
  unfold known_layer, layer_of. destruct (py_in _ _); [|done].
  intros [l [-> Hl]]; done.
Qed.

Lemma add_parameter_trainable groups name param :
  requires_grad param = true →
  known name →
  (is_Some (dict_get groups.1 (key_of enc name param))
   ↔ is_Some (dict_get groups.2 (key_of enc name param))) →
  add_parameter enc lr_scales weight_decay groups (name, param)
  = Return
      (upsert_at groups.1 (key_of enc name param)
         (is_no_decay name param) (layer_of enc name) name,
       upsert_at groups.2 (key_of enc name param)
         (is_no_decay name param) (layer_of enc name) param).
Proof.
  intros Hgrad Hknown Hkeys. destruct groups as [names vars].
  unfold add_parameter. cbn [fst snd] in *. rewrite Hgrad. cbn [negb].
  destruct (layer_of_known name Hknown) as [-> Hrange]. cbn [obind].
  fold (is_no_decay name param).
  assert (match layer_of enc name with
          | Some l =>
              vit_layer_group_name l
                (if is_no_decay name param then "no_decay" else "decay")
          | None => if is_no_decay name param then "no_decay" else "decay"
          end = key_of enc name param) as ->.
  { unfold key_of, group_key, vit_layer_group_name.
    by destruct (layer_of enc name). }
  assert (match layer_of enc name with
          | Some l => py_index lr_scales l
          | None => Return (PyInt 1)
          end = Return (scale_at (layer_of enc name))) as Hscale.
  { destruct (layer_of enc name) as [l|]; [|done]. cbn [scale_of].
    subst lr_scales.
    by rewrite (py_index_fmap_range
                  (λ i, power_of scale (vit_num_layers + 1 - i))) by lia. }
  assert ((if is_no_decay name param then PyFloat 0 else weight_decay)
          = wd_of weight_decay (is_no_decay name param)) as -> by done.
  unfold upsert.
  destruct (dict_contains names (key_of enc name param)) eqn:Hin;
    cbn [negb obind fst snd].
  - apply dict_contains_get in Hin. destruct Hin as [gn Hgn].
    destruct (proj1 Hkeys (mk_is_Some _ _ Hgn)) as [gv Hgv].
    rewrite (dict_item_get _ _ _ Hgv). cbn [obind].
    rewrite (dict_item_get _ _ _ Hgn). cbn [obind].
    by rewrite Hgn, Hgv.
  - assert (dict_get names (key_of enc name param) = None) as Hgn.
    { apply eq_None_not_Some. rewrite <-dict_contains_get. congruence. }
    assert (dict_get vars (key_of enc name param) = None) as Hgv.
    { apply eq_None_not_Some. rewrite <-Hkeys, Hgn. by intros [? ?]. }
    rewrite Hscale. cbn [obind fst snd].
    rewrite !(dict_item_get _ _ _ (dict_get_set_eq _ _ _)).
    cbn [obind group_weight_decay group_params group_lr_scale app].
    by rewrite !dict_set_set, Hgn, Hgv.
Qed.
Lemma groups_inv_empty : groups_ok [] ([], []).
Proof.
  split; simpl.
  - done.
  - done.
  - done.
  - intros ? ? Hin. by apply elem_of_nil in Hin.
Qed.

Lemma groups_inv_frozen seen groups name param :
  requires_grad param = false →
  groups_ok seen groups → groups_ok (seen ++ [(name, param)]) groups.
Proof.
  intros Hgrad [Hkeys Hlen Hset Hplaced]. split; try done.
  intros name' param' Hin Hgrad'.
  apply elem_of_app in Hin as [Hin|Hin]; [by apply Hplaced|].
  apply list_elem_of_singleton in Hin. congruence.
Qed.

Lemma groups_inv_upsert seen names vars name param :
  groups_ok seen (names, vars) →
  groups_ok (seen ++ [(name, param)])
    (upsert_at names (key_of enc name param) (is_no_decay name param)
       (layer_of enc name) name,
     upsert_at vars (key_of enc name param) (is_no_decay name param)
       (layer_of enc name) param).
Proof.
  intros [Hkeys Hlen Hset Hplaced]. simpl in *.
  set (k := key_of enc name param).
  split; simpl.
  - intros k'. destruct (decide (k = k')) as [<-|Hne].
    + rewrite !upsert_get_eq. split; by eexists.
    + by rewrite !upsert_get_ne.
  - intros k' gn gv. destruct (decide (k = k')) as [<-|Hne].
    + rewrite !upsert_get_eq. intros [= <-] [= <-].
      destruct (dict_get names k) as [gn|] eqn:Hgn,
               (dict_get vars k) as [gv|] eqn:Hgv; simpl.
      * rewrite !length_app. by rewrite (Hlen k gn gv).
      * destruct (proj1 (Hkeys k)) as [? ?]; [by eexists | congruence].
      * destruct (proj2 (Hkeys k)) as [? ?]; [by eexists | congruence].
      * done.
    + rewrite !upsert_get_ne by done. apply Hlen.
  - intros k' gv. destruct (decide (k = k')) as [<-|Hne].
    + rewrite upsert_get_eq. intros [= <-].
      destruct (dict_get vars k) as [gv|] eqn:Hgv; simpl.
      * by apply Hset.
      * by exists (is_no_decay name param), (layer_of enc name).
    + rewrite upsert_get_ne by done. apply Hset.
  - intros name' param' Hin Hgrad'.
    apply elem_of_app in Hin as [Hin|Hin].
    + destruct (Hplaced name' param' Hin Hgrad')
        as (gn & gv & j & Hgn & Hgv & Hj & Hj').
      destruct (decide (k = key_of enc name' param')) as [Heq|Hne].
      * rewrite <-Heq in Hgn, Hgv |- *.
        rewrite !upsert_get_eq, Hgn, Hgv. eexists _, _, j.
        split; [done|]. split; [done|]. simpl.
        split; by apply lookup_app_l_Some.
      * rewrite !upsert_get_ne by done. by eexists _, _, j.
    + apply list_elem_of_singleton in Hin as [= -> ->]. fold k.
      rewrite !upsert_get_eq.
      destruct (dict_get names k) as [gn|] eqn:Hgn,
               (dict_get vars k) as [gv|] eqn:Hgv.
      * eexists _, _, (length (group_params gn)).
        split; [done|]. split; [done|]. simpl.
        rewrite (Hlen k gn gv Hgn Hgv) at 2.
        split; by apply list_lookup_middle.
      * destruct (proj1 (Hkeys k)) as [? ?]; [by eexists | congruence].
      * destruct (proj2 (Hkeys k)) as [? ?]; [by eexists | congruence].
      * by eexists _, _, 0.
Qed.

Lemma add_parameter_inv seen groups name param :
  (requires_grad param = true → known name) →
  groups_ok seen groups →
  ∃ groups',
    add_parameter enc lr_scales weight_decay groups (name, param)
    = Return groups'
    ∧ groups_ok (seen ++ [(name, param)]) groups'.
Proof.
  intros Hknown Hinv. destruct (requires_grad param) eqn:Hgrad.
  - eexists. split.
    + apply add_parameter_trainable; [done | by apply Hknown |].
      apply (inv_keys _ _ _ _ _ _ Hinv).
    + destruct groups. by apply groups_inv_upsert.
  - exists groups. split.
    + by apply add_parameter_frozen.
    + by apply groups_inv_frozen.
Qed.

Lemma parameter_groups_inv rest : ∀ seen groups,
  (∀ name param,
     (name, param) ∈ rest → requires_grad param = true → known name) →
  groups_ok seen groups →
  ∃ groups',
    parameter_groups enc lr_scales weight_decay groups rest = Return groups'
    ∧ groups_ok (seen ++ rest) groups'.
Proof.
  induction rest as [|[name param] rest IH]; intros seen groups Hknown Hinv.
  - exists groups. by rewrite app_nil_r.
  - destruct (add_parameter_inv seen groups name param) as (g1 & Hstep & Hinv1);
      [intros; eapply Hknown; [apply elem_of_cons; by left | done] | done |].
    destruct (IH (seen ++ [(name, param)]) g1) as (g2 & Hloop & Hinv2);
      [intros; eapply Hknown; [apply elem_of_cons; by right | done] | done |].
    exists g2. simpl. rewrite Hstep. simpl. split; [done|].
    by rewrite <-app_assoc in Hinv2.
Qed.
End GetOptimizerParams.

Section LayerwiseDecay.
Context {World : Type} `{!Library World}.

(** C2 (as amended): with [vit_name == "eva_clip_g"], an encoder that
    reports [vit_num_layers] layers and, for every trainable parameter
    whose name contains ['visual_encoder'], a layer id within
    [0 .. vit_num_layers + 1], and an [lr_scale] whose powers
    [lr_scale ** k], [k = 0 .. vit_num_layers + 1], are computed without
    exception (as they are for every [int]), [get_optimizer_params]
    returns the groups [parameter_group_vars] and leaves the state alone.
    Every trainable parameter sits in one of the returned groups, at the
    position its name has in the group of the same key of
    [parameter_group_names].  That group has weight decay [0.] when the
    parameter is one-dimensional or its name ends in [".bias"] and the
    given [weight_decay] otherwise; its [lr_scale] is
    [lr_scale ** (vit_num_layers + 1 - layer_id)] for a parameter of the
    encoder and [1] for any other. *)
Theorem get_optimizer_params_layerwise (weight_decay : PyNum)
    (lr_scale : option PyNum) (st : State World) (enc : VisionEncoder)
    (vit_num_layers : Z)
    (Hname : vit_name (self st) = Some "eva_clip_g")
    (Henc : visual_encoder (self st) = Some enc)
    (Hlayers : get_num_layer enc None = inr vit_num_layers)
    (Hids : ∀ name param,
       (name, param) ∈ named_parameters (self st) →
       requires_grad param = true →
       py_in "visual_encoder" name = true →
       ∃ layer_id,
         get_num_layer enc (Some (py_replace "visual_encoder." "" name))
         = inr layer_id
         ∧ (0 ≤ layer_id ≤ vit_num_layers + 1)%Z)
    (Hpow : ∀ k,
       (0 ≤ k ≤ vit_num_layers + 1)%Z →
       ∃ p, py_pow (default (PyInt 1) lr_scale) k = Return p) :
  ∃ lr_scales names vars,
    py_listcomp
      (λ i, py_pow (default (PyInt 1) lr_scale) (vit_num_layers + 1 - i))
      (py_range (vit_num_layers + 2))
    = Return lr_scales
    ∧ parameter_groups enc lr_scales weight_decay ([], [])
        (named_parameters (self st))
      = Return (names, vars)
    ∧ get_optimizer_params weight_decay lr_scale st
      = (Return (dict_values vars), st)
    ∧ ∀ name param,
        (name, param) ∈ named_parameters (self st) →
        requires_grad param = true →
        ∃ key gn gv j,
          dict_get names key = Some gn
          ∧ dict_get vars key = Some gv
          ∧ gv ∈ dict_values vars
          ∧ group_params gn !! j = Some name
          ∧ group_params gv !! j = Some param
          ∧ group_weight_decay gv
            = (if bool_decide (length (shape param) = 1)
                  || endswith ".bias" name
               then PyFloat 0 else weight_decay)
          ∧ if py_in "visual_encoder" name then
              ∃ layer_id,
                get_num_layer enc
                  (Some (py_replace "visual_encoder." "" name))
                = inr layer_id
                ∧ py_pow (default (PyInt 1) lr_scale)
                    (vit_num_layers + 1 - layer_id)
                  = Return (group_lr_scale gv)
            else group_lr_scale gv = PyInt 1.
Proof.
  destruct (parameter_groups_inv enc vit_num_layers
              (default (PyInt 1) lr_scale) weight_decay
              (named_parameters (self st)) [] ([], []))
    as ([names vars] & Hloop & Hinv).
  { intros name param Hin Hgrad Hvis. by eapply Hids. }
  { apply groups_inv_empty. }
  pose proof (lr_scales_computed _ _ Hpow) as Htable.
  eexists _, names, vars. split; [exact Htable|]. split; [done|]. split.
  - unfold get_optimizer_params, bind, getattr, lift, get_self, ret.
    rewrite Hname. simpl. rewrite Henc. simpl. rewrite Hlayers. simpl.
    rewrite Htable. by rewrite Hloop.
  - intros name param Hin Hgrad.
    destruct (inv_placed _ _ _ _ _ _ Hinv name param Hin Hgrad)
      as (gn & gv & j & Hgn & Hgv & Hj & Hj').
    destruct (inv_settings _ _ _ _ _ _ Hinv _ _ Hgv)
      as (nd & layer & Hkey & Hwd & Hscale).
    apply group_key_inj in Hkey as [<- <-].
    exists (key_of enc name param), gn, gv, j.
    split; [done|]. split; [done|].
    split; [by eapply dict_get_values|].
    split; [done|]. split; [done|].
    split; [exact Hwd|].
    rewrite Hscale. unfold layer_of.
    destruct (py_in "visual_encoder" name) eqn:Hvis; [|done].
    destruct (Hids name param Hin Hgrad Hvis) as (l & Hl & Hrange).
    exists l. rewrite Hl. split; [done|]. cbn [scale_of].
    destruct (Hpow (vit_num_layers + 1 - l)%Z) as [p Hp]; [lia|].
    by rewrite Hp, (power_of_pow _ p).
Qed.
End LayerwiseDecay.

Lemma get_optimizer_params_layerwise_witness :
  ∃ vars,
    get_optimizer_params (PyFloat 0.5) (Some (PyInt 2)) toy_model
    = (Return (dict_values vars), toy_model)
    ∧ ∃ gv,
        dict_get vars "vit_layer_1_decay" = Some gv
        ∧ group_lr_scale gv = PyInt 4.
Proof.
  destruct (@get_optimizer_params_layerwise ToyWorld toy_library (PyFloat 0.5)
              (Some (PyInt 2)) toy_model toy_encoder 2 eq_refl eq_refl eq_refl)
    as (lr_scales & names & vars & Htable & Hloop & Hrun & _).
  { intros name param Hin Hgrad Hvis. unfold toy_model in Hin. simpl in Hin.
    unfold toy_named_parameters in Hin.
    repeat (apply elem_of_cons in Hin as [Hin|Hin];
            [injection Hin as -> ->;
             first [discriminate Hvis | discriminate Hgrad
                   | eexists; split; [reflexivity | lia]]|]).
    by apply elem_of_nil in Hin. }
  { intros k Hk. exists (PyInt (2 ^ k)). apply py_pow_int. lia. }
  exists vars. split; [exact Hrun|].
  vm_compute in Htable. injection Htable as <-.
  vm_compute in Hloop. injection Hloop as _ <-.
  eexists. split; reflexivity.
Defined.

(** C2 as it was stated fails: with [vit_name == "eva_clip_g"], an
    encoder of two blocks and the float [lr_scale = 2.0 ** 1000], the
    first entry of [lr_scales], [lr_scale ** 3], leaves the range of
    floats.  [OverflowError] is raised while [lr_scales] is built, and no
    parameter is placed in any group. *)
Lemma get_optimizer_params_layerwise_counterexample :
  vit_name (self toy_model) = Some "eva_clip_g"
  ∧ visual_encoder (self toy_model) = Some toy_encoder
  ∧ get_num_layer toy_encoder None = inr 2%Z
  ∧ py_pow (PyFloat 0x1p+1000) (2 + 1 - 0)
    = Raise Here
        (mkExn OverflowError (ArgStr "Numerical result out of range"))
  ∧ get_optimizer_params (PyFloat 0.5) (Some (PyFloat 0x1p+1000)) toy_model
    = (Raise Here
         (mkExn OverflowError (ArgStr "Numerical result out of range")),
       toy_model).
Proof. repeat split; vm_compute; reflexivity. Qed.

Example get_optimizer_params_runs :
  get_optimizer_params (PyFloat 0.5) (Some (PyInt 2)) toy_model
  = (Return
       [mkGroup (PyFloat 0.5)
          [mkParam (mkTensor float32 [8; 3; 2; 2]%Z []) true] (PyInt 8);
        mkGroup (PyFloat 0.5)
          [mkParam (mkTensor float32 [24; 8]%Z []) true] (PyInt 4);
        mkGroup (PyFloat 0)
          [mkParam (mkTensor float32 [32]%Z []) true] (PyInt 2);
        mkGroup (PyFloat 0.5)
          [mkParam (mkTensor float32 [32; 8]%Z []) true] (PyInt 2);
        mkGroup (PyFloat 0)
          [mkParam (mkTensor float32 [8]%Z []) true] (PyInt 1);
        mkGroup (PyFloat 0.5)
          [mkParam (mkTensor float32 [100; 8]%Z []) true] (PyInt 1)],
     toy_model).
Proof. vm_compute. reflexivity. Qed.

(** * Further properties *)

(** ** device and maybe_autocast *)

Lemma py_index_first {A} (x : A) (l : list A) : py_index (x :: l) 0 = Return x.
Proof.
  unfold py_index. cbv zeta. destruct (decide (0 < 0)%Z); [lia|].
  destruct (decide (0 ≤ 0 < Z.of_nat (length (x :: l)))%Z) as [_|Hout].
  - reflexivity.
  - simpl in Hout. lia.
Qed.

Section Device.
Context {World : Type} `{!Library World} `{!Runtime World}.

(** X1: [device] is the device of the first parameter of the module; on a
    module without parameters indexing the empty list raises
    [IndexError].  The state is not touched. *)
Theorem device_first_parameter (st : State World) :
  match named_parameters (self st) with
  | [] =>
      device st
      = (Raise Here (mkExn IndexError (ArgStr index_out_of_range)), st)
  | (_, first) :: _ => device st = (Return (param_device first), st)
  end.
Proof.
  unfold device, module_property, bind, get_self, lift, ret, parameters.
  destruct (named_parameters (self st)) as [|[name first] rest].
  - reflexivity.
  - rewrite fmap_cons, py_index_first. reflexivity.
Qed.

(** X2: [maybe_autocast] returns [contextlib.nullcontext()] exactly when
    the first parameter is on [torch.device("cpu")], and otherwise
    [torch.cuda.amp.autocast] with the given dtype, [torch.float16] by
    default.  Without parameters the [IndexError] of [device] escapes.
    The state is not touched. *)
Theorem maybe_autocast_spec (dtype : option dtype) (st : State World) :
  match named_parameters (self st) with
  | [] =>
      maybe_autocast dtype st
      = (Raise Here (mkExn IndexError (ArgStr index_out_of_range)), st)
  | (_, first) :: _ =>
      maybe_autocast dtype st
      = (Return (if decide (param_device first = mkDevice "cpu" None)
                 then nullcontext
                 else autocast (default float16 dtype)), st)
  end.
Proof.
  unfold maybe_autocast, bind, device, module_property, bind, get_self, lift,
    ret, parameters.
  destruct (named_parameters (self st)) as [|[name first] rest].
  - reflexivity.
  - rewrite fmap_cons, py_index_first.
    destruct (decide (param_device first = mkDevice "cpu" None)) as [Hcpu|Hne].
    + rewrite bool_decide_eq_false_2 by (intros Hne; by apply Hne).
      reflexivity.
    + by rewrite bool_decide_eq_true_2.
Qed.
End Device.

Example maybe_autocast_runs :
  maybe_autocast None toy_model = (Return nullcontext, toy_model)
  ∧ maybe_autocast (Some bfloat16)
      (mkState
         (mkBlip2Base None None None
            [("w", mkParam (mkTensor float16 [2]%Z []) true)])
         toy_world [])
    = (Return (autocast bfloat16),
       mkState
         (mkBlip2Base None None None
            [("w", mkParam (mkTensor float16 [2]%Z []) true)])
         toy_world []).
Proof. split; reflexivity. Qed.

(** ** A module fresh from __init__ *)

Section Fresh.
Context {World : Type} `{!Library World} `{!Runtime World}.

(** On an instance on which only [__init__] has run, [lemmatizer],
    [get_optimizer_params] and [device] all fail before any library is
    called: the attributes [_lemmatizer] and [vit_name] were never
    assigned, and there is no parameter.  State, world and log stay as
    they are. *)
Example fresh_instance_fails (w : World) (l : list (LogLevel * string))
    (weight_decay : PyNum) (lr_scale : option PyNum) :
  let st := mkState __init__ w l in
  lemmatizer st
  = (Raise Here (mkExn AttributeError (ArgStr "lemmatizer")), st)
  ∧ get_optimizer_params weight_decay lr_scale st
    = (Raise Here (mkExn AttributeError (ArgStr "vit_name")), st)
  ∧ device st
    = (Raise Here (mkExn IndexError (ArgStr index_out_of_range)), st).
Proof. repeat split. Qed.
End Fresh.

(** ** lemmatizer: what is not an ImportError, and what is returned *)

Section LemmatizerMore.
Context {World : Type} `{!Library World}.

(** X3: on an access that finds the field [None], an exception of
    [import spacy] or of [spacy.load] that is not an [ImportError] (an
    [OSError], say) is not caught by the handler: nothing is logged, the
    process does not exit, and the field stays [None].  The exception
    escapes as it is, unless it is an [AttributeError]: [lemmatizer] is a
    property of an [nn.Module], so what the caller sees then is the
    [AttributeError] for the name ['lemmatizer'] itself. *)
Theorem lemmatizer_other_error (st : State World)
    (Hnone : _lemmatizer (self st) = Some None) :
  (∀ e w,
     import_spacy (world st) = (inl e, w) →
     issubclass (exn_class e) ImportError = false →
     lemmatizer st
     = (if issubclass (exn_class e) AttributeError
        then Raise Here (mkExn AttributeError (ArgStr "lemmatizer"))
        else Raise Callee e,
        mkState (self st) w (log st)))
  ∧ (∀ spacy w e w',
       import_spacy (world st) = (inr spacy, w) →
       spacy_load spacy "en_core_web_sm" w = (inl e, w') →
       issubclass (exn_class e) ImportError = false →
       lemmatizer st
       = (if issubclass (exn_class e) AttributeError
          then Raise Here (mkExn AttributeError (ArgStr "lemmatizer"))
          else Raise Callee e,
          mkState (self st) w' (log st))).
Proof.
  split.
  - intros e w Himp Hsub. rewrite lemmatizer_first_access by done.
    unfold module_property, bind, try_except, call. rewrite Himp, Hsub.
    by destruct (issubclass (exn_class e) AttributeError).
  - intros spacy w e w' Himp Hload Hsub.
    rewrite lemmatizer_first_access by done.
    unfold module_property, bind, try_except, call. rewrite Himp. simpl.
    rewrite Hload, Hsub.
    by destruct (issubclass (exn_class e) AttributeError).
Qed.

(** X4: whenever [lemmatizer] returns, it returns an object, never [None],
    and that object is the one stored in the field. *)
Theorem lemmatizer_returns_object (st st' : State World)
    (result : option PyObject)
    (Hrun : lemmatizer st = (Return result, st')) :
  ∃ nlp, result = Some nlp ∧ _lemmatizer (self st') = Some (Some nlp).
Proof.
  destruct (_lemmatizer (self st)) as [[nlp|]|] eqn:Hfield.
  - rewrite (lemmatizer_stored st nlp Hfield) in Hrun.
    injection Hrun as <- <-. by exists nlp.
  - rewrite lemmatizer_first_access in Hrun by done. revert Hrun.
    unfold module_property, bind, try_except, call, setattr, getattr, logging,
      py_exit, raise.
    destruct (import_spacy (world st)) as [[e|spacy] w]; simpl.
    + destruct (issubclass (exn_class e) ImportError); simpl;
        [|destruct (issubclass (exn_class e) AttributeError)]; discriminate.
    + destruct (spacy_load spacy "en_core_web_sm" w) as [[e|nlp] w']; simpl.
      * destruct (issubclass (exn_class e) ImportError); simpl;
          [|destruct (issubclass (exn_class e) AttributeError)]; discriminate.
      * intros [= <- <-]. by exists nlp.
  - revert Hrun.
    unfold lemmatizer, module_property, lemmatizer_getter, bind, getattr.
    rewrite Hfield. discriminate.
Qed.

(** X5: no access of [lemmatizer] changes another attribute of the
    instance, and only the access that exits writes to the log. *)
Theorem lemmatizer_frame (st : State World) :
  let st' := (lemmatizer st).2 in
  vit_name (self st') = vit_name (self st)
  ∧ visual_encoder (self st') = visual_encoder (self st)
  ∧ named_parameters (self st') = named_parameters (self st)
  ∧ (log st' = log st
     ∨ (lemmatizer st).1 = Raise Here (mkExn SystemExit (ArgInt 1))
       ∧ log st' = log st ++ [(ERROR, lemmatizer_message)]).
Proof.
  destruct (_lemmatizer (self st)) as [[nlp|]|] eqn:Hfield.
  - rewrite (lemmatizer_stored st nlp Hfield). simpl. auto 10.
  - rewrite lemmatizer_first_access by done.
    unfold module_property, bind, try_except, call, setattr, getattr, logging,
      py_exit, raise.
    destruct (import_spacy (world st)) as [[e|spacy] w]; simpl.
    + destruct (issubclass (exn_class e) ImportError); simpl;
        [|destruct (issubclass (exn_class e) AttributeError)]; simpl; auto 10.
    + destruct (spacy_load spacy "en_core_web_sm" w) as [[e|nlp] w']; simpl.
      * destruct (issubclass (exn_class e) ImportError); simpl;
          [|destruct (issubclass (exn_class e) AttributeError)]; simpl;
          auto 10.
      * auto 10.
  - unfold lemmatizer, module_property, lemmatizer_getter, bind, getattr.
    rewrite Hfield. simpl. auto 10.
Qed.
End LemmatizerMore.

Lemma lemmatizer_other_error_witness :
  let st := toy_state in
  @lemmatizer ToyWorld toy_broken st
  = (Raise Callee (mkExn OSError (ArgStr "en_core_web_sm")), st).
Proof.
  etransitivity;
    [apply (proj2 (@lemmatizer_other_error ToyWorld toy_broken toy_state
                     eq_refl)
              (Obj "module" 1) toy_world
              (mkExn OSError (ArgStr "en_core_web_sm")) toy_world)|];
    reflexivity.
Defined.

Lemma lemmatizer_returns_object_witness :
  ∃ nlp,
    Some (Obj "English" 10) = Some nlp
    ∧ _lemmatizer
        (self (mkState (set_lemmatizer (Some (Obj "English" 10)) toy_self)
                 (mkToyWorld ["/ckpt/model.pth"] 11 true) []))
      = Some (Some nlp).
Proof.
  apply (lemmatizer_returns_object (World := ToyWorld) toy_state).
  reflexivity.
Defined.

(** ** load_from_pretrained: failures *)

Section LoadFromPretrainedMore.
Context {World : Type} `{!Library World}.


(** X7: a checkpoint without the key ["model"] raises [KeyError] once it
    has been deserialized (and, for a URL, downloaded); [load_state_dict]
    is not reached. *)
Theorem load_from_pretrained_no_model (url_or_filename : string)
    (st : State World) (checkpoint : gmap string PyObject) (w : World)
    (Hload :
       if is_url url_or_filename then
         ∃ cached_file w1,
           download_cached_file url_or_filename false true (world st)
           = (inr cached_file, w1)
           ∧ torch_load cached_file "cpu" w1 = (inr checkpoint, w)
       else
         os_path_isfile url_or_filename (world st) = true
         ∧ torch_load url_or_filename "cpu" (world st) = (inr checkpoint, w))
    (Hmissing : checkpoint !! "model" = None) :
  load_from_pretrained url_or_filename st
  = (Raise Here (mkExn KeyError (ArgStr "model")),
     mkState (self st) w (log st)).
Proof.
  unfold load_from_pretrained, bind, call, call_method, read_world, getitem,
    raise.
  destruct (is_url url_or_filename); simpl.
  - destruct Hload as (cached & w1 & -> & Hload). simpl.
    rewrite Hload. simpl. by rewrite Hmissing.
  - destruct Hload as [-> Hload]. rewrite Hload. simpl. by rewrite Hmissing.
Qed.
End LoadFromPretrainedMore.

(** A [load_state_dict] that raises after it has copied the tensors that
    fit: the exception escapes, and the parameters are no longer what they
    were. *)
Example load_from_pretrained_partly_loaded :
  let run :=
    @load_from_pretrained ToyWorld toy_mismatch "/ckpt/model.pth" toy_model in
  run.1 = Raise Callee (mkExn RuntimeError (ArgStr "size mismatch"))
  ∧ named_parameters (self run.2) = toy_loaded <$> toy_named_parameters
  ∧ self run.2 ≠ self toy_model
  ∧ log run.2 = log toy_model.
Proof. repeat split. discriminate. Qed.

Lemma load_from_pretrained_no_model_witness :
  @load_from_pretrained ToyWorld toy_broken "/ckpt/model.pth" toy_state
  = (Raise Here (mkExn KeyError (ArgStr "model")), toy_state).
Proof.
  apply (@load_from_pretrained_no_model ToyWorld toy_broken "/ckpt/model.pth"
           toy_state ∅ toy_world).
  - split; reflexivity.
  - reflexivity.
Defined.

(** ** _lemmatize *)

Lemma lemmatize_words_from (doc : list Token) (words : list string) :
  foldl
    (λ words token,
       if bool_decide (pos_ token ∈ ["NOUN"; "VERB"])
       then words ++ [lemma_ token]
       else words ++ [text token])
    words doc
  = words ++ (token_word <$> doc).
Proof.
  revert words. induction doc as [|token doc IH]; intros words; simpl.
  - by rewrite app_nil_r.
  - rewrite IH. unfold token_word at 2.
    destruct (bool_decide (pos_ token ∈ ["NOUN"; "VERB"]));
      by rewrite <-app_assoc.
Qed.

Lemma lemmatize_words_map (doc : list Token) :
  lemmatize_words doc = token_word <$> doc.
Proof. apply lemmatize_words_from. Qed.

Section Lemmatize.
Context {World : Type} `{!Library World} `{!Runtime World}.

(** X8: with a pipeline stored in the field and a pipeline that answers
    [doc_of answer] without changing the world, [_lemmatize] returns one
    string per answer, in order: the words of the answer's tokens (lemma
    for [NOUN] and [VERB], text otherwise) joined by single spaces.  The
    state is not touched and spacy is not loaded again. *)
Theorem _lemmatize_stored (answers : list string) (st : State World)
    (nlp : PyObject) (doc_of : string → list Token)
    (Hstored : _lemmatizer (self st) = Some (Some nlp))
    (Hpure : ∀ answer,
       answer ∈ answers →
       pipeline_call nlp answer (world st) = (inr (doc_of answer), world st)) :
  _lemmatize answers st
  = (Return ((λ answer, py_join " " (token_word <$> doc_of answer))
               <$> answers), st).
Proof.
  induction answers as [|answer rest IH]; [reflexivity|].
  simpl. unfold bind at 1. unfold _lemmatize_apply, bind at 1.
  rewrite (lemmatizer_stored st nlp Hstored).
  unfold bind at 1, call.
  rewrite (Hpure answer) by (apply elem_of_cons; by left).
  assert (mkState (self st) (world st) (log st) = st) as -> by by destruct st.
  unfold ret at 1. unfold bind at 1.
  rewrite IH by (intros a Ha; apply Hpure, elem_of_cons; by right).
  by rewrite lemmatize_words_map.
Qed.

(** X9: with the field [None] and a spacy that cannot be imported, the
    first answer of a non-empty list already ends the process: the message
    is logged once, [SystemExit(1)] is raised, no answer is lemmatized and
    the pipeline is never called. *)
Theorem _lemmatize_exits (answer : string) (rest : list string)
    (st : State World) (e : PyExn) (w : World)
    (Hnone : _lemmatizer (self st) = Some None)
    (Himport : import_spacy (world st) = (inl e, w))
    (Hclass : issubclass (exn_class e) ImportError = true) :
  _lemmatize (answer :: rest) st
  = (Raise Here (mkExn SystemExit (ArgInt 1)),
     mkState (self st) w (log st ++ [(ERROR, lemmatizer_message)])).
Proof.
  simpl. unfold bind at 1. unfold _lemmatize_apply, bind at 1.
  rewrite lemmatizer_first_access by done.
  unfold module_property, bind, try_except, call.
  rewrite Himport, Hclass. reflexivity.
Qed.
End Lemmatize.

Lemma _lemmatize_stored_witness :
  let st :=
    mkState (set_lemmatizer (Some (Obj "English" 10)) toy_self) toy_world [] in
  _lemmatize ["the cats sleep"; ""; "dogs"] st
  = (Return ["the cat sleep"; ""; "dog"], st).
Proof.
  etransitivity.
  - apply (_lemmatize_stored (World := ToyWorld)
             ["the cats sleep"; ""; "dogs"]
             (mkState (set_lemmatizer (Some (Obj "English" 10)) toy_self)
                toy_world [])
             (Obj "English" 10)
             (λ answer, toy_token <$> String.words answer)).
    + reflexivity.
    + intros answer _. reflexivity.
  - reflexivity.
Defined.

Lemma _lemmatize_exits_witness :
  let st := mkState toy_self (mkToyWorld [] 1 false) [] in
  _lemmatize ["cats"; "dogs"] st
  = (Raise Here (mkExn SystemExit (ArgInt 1)),
     mkState toy_self (mkToyWorld [] 1 false) [(ERROR, lemmatizer_message)]).
Proof.
  apply (_lemmatize_exits (World := ToyWorld) "cats" ["dogs"]
           (mkState toy_self (mkToyWorld [] 1 false) [])
           (mkExn ModuleNotFoundError (ArgStr "spacy"))
           (mkToyWorld [] 1 false));
    reflexivity.
Defined.

(** ** init_vision_encoder: what it leaves alone *)

Section InitVisionEncoderMore.
Context {World : Type} `{!Library World}.

(** X10: [init_vision_encoder] assigns [self.vit_name] and nothing else: it
    only returns the encoder, so [self.visual_encoder] stays as it was
    (as do [_lemmatizer], the parameters and the log), and [vit_name]
    itself changes only when the method returns. *)
Theorem init_vision_encoder_frame (model_name : string) (img_size : Z)
    (drop_path_rate : PyNum) (use_grad_checkpoint : bool)
    (precision : string) (model_root_dir : option string)
    (st : State World) :
  let run :=
    init_vision_encoder model_name img_size drop_path_rate
      use_grad_checkpoint precision model_root_dir st in
  visual_encoder (self run.2) = visual_encoder (self st)
  ∧ _lemmatizer (self run.2) = _lemmatizer (self st)
  ∧ named_parameters (self run.2) = named_parameters (self st)
  ∧ log run.2 = log st
  ∧ match run.1 with
    | Return _ => vit_name (self run.2) = Some model_name
    | Raise _ _ => vit_name (self run.2) = vit_name (self st)
    end.
Proof.
  intros run. subst run.
  unfold init_vision_encoder, bind, py_assert, call, ret, raise, read_local,
    setattr.
  destruct (bool_decide (model_name ∈ _)); simpl; [|done].
  destruct (String.eqb model_name "eva_clip_g"); simpl.
  { destruct (create_eva_vit_g _ _ _ _ _ _) as [[e|enc] w]; simpl; done. }
  destruct (String.eqb model_name "clip_L"); simpl; [|done].
  destruct (create_clip_vit_L _ _ _ _ _) as [[e|enc] w]; simpl; done.
Qed.

(** X11: as the encoder is not stored, calling [get_optimizer_params]
    right after a successful [init_vision_encoder("eva_clip_g", ...)] on
    an instance whose [visual_encoder] was never assigned raises
    [AttributeError] on [self.visual_encoder]. *)
Theorem init_vision_encoder_then_get_optimizer_params (img_size : Z)
    (drop_path_rate : PyNum) (use_grad_checkpoint : bool)
    (precision : string) (model_root_dir : option string)
    (weight_decay : PyNum) (lr_scale : option PyNum)
    (st : State World) (enc : VisionEncoder) (w : World)
    (Hcreate : create_eva_vit_g img_size drop_path_rate use_grad_checkpoint
                 precision (default "models" model_root_dir) (world st)
               = (inr enc, w))
    (Hunset : visual_encoder (self st) = None) :
  (init_vision_encoder "eva_clip_g" img_size drop_path_rate
     use_grad_checkpoint precision model_root_dir ;;
   get_optimizer_params weight_decay lr_scale) st
  = (Raise Here (mkExn AttributeError (ArgStr "visual_encoder")),
     mkState (set_vit_name "eva_clip_g" (self st)) w (log st)).
Proof.
  unfold bind at 1.
  unfold init_vision_encoder, bind, py_assert, call, ret, read_local, setattr.
  simpl. rewrite Hcreate. simpl.
  unfold get_optimizer_params, bind, getattr. simpl. by rewrite Hunset.
Qed.
End InitVisionEncoderMore.

Lemma init_vision_encoder_then_get_optimizer_params_witness :
  (init_vision_encoder "eva_clip_g" 224 (PyInt 0) false "fp16" None ;;
   get_optimizer_params (PyFloat 0.5) None) toy_state
  = (Raise Here (mkExn AttributeError (ArgStr "visual_encoder")),
     mkState (set_vit_name "eva_clip_g" toy_self)
       (mkToyWorld ["/ckpt/model.pth"] 11 true) []).
Proof.
  apply (init_vision_encoder_then_get_optimizer_params (World := ToyWorld)
           224 (PyInt 0) false "fp16" None (PyFloat 0.5) None toy_state
           (mkVisionEncoder (Obj "VisionTransformer" 10) 1408)
           (mkToyWorld ["/ckpt/model.pth"] 11 true));
    reflexivity.
Defined.

(** ** init_tokenizer and init_Qformer: class methods *)

Section ClassMethods.
Context {World : Type} `{!Library World}.

(** X12: [init_tokenizer] and [init_Qformer] are class methods: whatever
    they return or raise, no instance is changed and nothing is logged. *)
Theorem class_methods_frame (truncation_side : option string)
    (num_query_token vision_width : Z) (cross_attention_freq : option Z)
    (st : State World) :
  let tok := init_tokenizer truncation_side st in
  let qf :=
    init_Qformer num_query_token vision_width cross_attention_freq st in
  self tok.2 = self st ∧ log tok.2 = log st
  ∧ self qf.2 = self st ∧ log qf.2 = log st.
Proof.
  intros tok qf. subst tok qf. split; [|split].
  - unfold init_tokenizer, bind, call, ret.
    destruct (BertTokenizer_from_pretrained _ _ _) as [[e|t] w1]; simpl;
      [done|].
    destruct (add_special_tokens _ _ _) as [[e|n] w2]; done.
  - unfold init_tokenizer, bind, call, ret.
    destruct (BertTokenizer_from_pretrained _ _ _) as [[e|t] w1]; simpl;
      [done|].
    destruct (add_special_tokens _ _ _) as [[e|n] w2]; done.
  - unfold init_Qformer, bind, call, ret, lift, config_getattr, raise.
    destruct (BertConfig_from_pretrained _ _) as [[e|cfg] w1]; simpl; [done|].
    destruct (BertLMHeadModel_from_pretrained _ _ _) as [[e|q] w2]; simpl;
      [done|].
    destruct (_ !! "hidden_size") as [hs|]; simpl; [|done].
    destruct (torch_zeros _) as [e|zeros]; simpl; [done|].
    destruct (_ !! "initializer_range") as [std|]; simpl; [|done].
    destruct (normal_ _ _ _ _) as [[e|data] w3]; done.
Qed.

(** X13: a pretrained configuration without [hidden_size] makes
    [init_Qformer] raise [AttributeError], but only after the pretrained
    model was fetched with the updated configuration: the world is the one
    that fetch left behind. *)
Theorem init_Qformer_no_hidden_size (num_query_token vision_width : Z)
    (cross_attention_freq : option Z) (st : State World)
    (pretrained : gmap string PyVal) (Qformer : PyObject) (w1 w2 : World)
    (Hconfig : BertConfig_from_pretrained "bert-base-uncased" (world st)
               = (inr pretrained, w1))
    (Hmissing : pretrained !! "hidden_size" = None)
    (Hmodel : BertLMHeadModel_from_pretrained "bert-base-uncased"
                (Qformer_config pretrained num_query_token vision_width
                   (default 2%Z cross_attention_freq)) w1
              = (inr Qformer, w2)) :
  init_Qformer num_query_token vision_width cross_attention_freq st
  = (Raise Here (mkExn AttributeError (ArgStr "hidden_size")),
     mkState (self st) w2 (log st)).
Proof.
  destruct (Qformer_config_attrs pretrained num_query_token vision_width
              (default 2%Z cross_attention_freq))
    as (_ & _ & _ & _ & Hhs & _).
  unfold init_Qformer, bind, call. rewrite Hconfig. simpl.
  fold (Qformer_config pretrained num_query_token vision_width
          (default 2%Z cross_attention_freq)).
  rewrite Hmodel. simpl. unfold config_getattr.
  by rewrite Hhs, Hmissing.
Qed.
End ClassMethods.

Lemma init_Qformer_no_hidden_size_witness :
  @init_Qformer ToyWorld toy_broken 32 1408 None toy_state
  = (Raise Here (mkExn AttributeError (ArgStr "hidden_size")),
     mkState toy_self (mkToyWorld ["/ckpt/model.pth"] 11 true) []).
Proof.
  apply (@init_Qformer_no_hidden_size ToyWorld toy_broken 32 1408 None
           toy_state ∅ (Obj "BertLMHeadModel" 10) toy_world
           (mkToyWorld ["/ckpt/model.pth"] 11 true));
    reflexivity.
Defined.

(** ** get_optimizer_params: the groups it returns *)

Lemma dict_set_keys {V} (d : dict V) (k : string) (v : V) :
  (dict_set d k v).*1 = if bool_decide (k ∈ d.*1) then d.*1 else d.*1 ++ [k].
Proof.
  induction d as [|[k0 v0] d IH]; [done|].
  cbn [dict_set]. rewrite fmap_cons. cbn [fst].
  destruct (decide (k0 = k)) as [->|Hne].
  - rewrite bool_decide_eq_true_2; [done | apply elem_of_cons; by left].
  - rewrite fmap_cons, IH. cbn [fst].
    destruct (bool_decide (k ∈ d.*1)) eqn:Hin.
    + apply bool_decide_eq_true in Hin.
      rewrite bool_decide_eq_true_2; [done | apply elem_of_cons; by right].
    + apply bool_decide_eq_false in Hin.
      rewrite bool_decide_eq_false_2; [done|].
      rewrite elem_of_cons. intros [?|?]; congruence.
Qed.

Lemma dict_values_omap {V} (d : dict V) (f : string → option V) :
  NoDup d.*1 →
  (∀ k, k ∈ d.*1 → dict_get d k = f k) →
  dict_values d = omap f d.*1.
Proof.
  unfold dict_values. induction d as [|[k v] d IH]; simpl; [done|].
  intros Hnodup Hget. apply NoDup_cons in Hnodup as [Hfresh Hnodup].
  pose proof (Hget k (list_elem_of_here _ _)) as Hk. simpl in Hk.
  rewrite decide_True in Hk by done. rewrite <-Hk. f_equal.
  apply IH; [done|]. intros k' Hin.
  rewrite <-(Hget k') by (apply elem_of_cons; by right). simpl.
  rewrite decide_False; [done|]. intros ->. by apply Hfresh.
Qed.

Section ExpectedGroups.
Context {World : Type} `{!Library World}.
Variables (enc : VisionEncoder) (vit_num_layers : Z).
Variables (scale weight_decay : PyNum).

Local Abbreviation key := (λ np : string * Param, key_of enc np.1 np.2).
Local Abbreviation expected :=
  (expected_group enc vit_num_layers scale weight_decay).
Local Abbreviation spec := (groups_spec enc vit_num_layers scale weight_decay).

Lemma trainable_snoc seen name param :
  trainable (seen ++ [(name, param)])
  = trainable seen ++ (if requires_grad param then [(name, param)] else []).
Proof.
  unfold trainable. rewrite filter_app. f_equal.
  destruct (requires_grad param) eqn:Hgrad.
  - by rewrite filter_cons_True.
  - rewrite filter_cons_False; [done|]. simpl. congruence.
Qed.

Lemma members_snoc k seen name param :
  requires_grad param = true →
  members enc k (seen ++ [(name, param)])
  = members enc k seen
    ++ (if decide (key_of enc name param = k) then [(name, param)] else []).
Proof.
  intros Hgrad. unfold members.
  by rewrite trainable_snoc, Hgrad, filter_app.
Qed.

Lemma expected_snoc_same {P} (proj : string * Param → P) seen name param :
  requires_grad param = true →
  expected proj (key_of enc name param) (seen ++ [(name, param)])
  = Some match expected proj (key_of enc name param) seen with
         | Some g =>
             mkGroup (group_weight_decay g)
               (group_params g ++ [proj (name, param)]) (group_lr_scale g)
         | None =>
             mkGroup (wd_of weight_decay (is_no_decay name param))
               [proj (name, param)]
               (scale_of vit_num_layers scale (layer_of enc name))
         end.
Proof.
  intros Hgrad. unfold expected_group.
  rewrite members_snoc, decide_True by done.
  destruct (members enc (key_of enc name param) seen) as [|np rest]; simpl.
  - done.
  - by rewrite fmap_app.
Qed.

Lemma expected_snoc_other {P} (proj : string * Param → P) k seen name param :
  requires_grad param = true →
  key_of enc name param ≠ k →
  expected proj k (seen ++ [(name, param)]) = expected proj k seen.
Proof.
  intros Hgrad Hne. unfold expected_group.
  by rewrite members_snoc, decide_False, app_nil_r.
Qed.

Lemma first_keys_elem k seen :
  k ∈ first_keys enc seen ↔ k ∈ key <$> trainable seen.
Proof.
  unfold first_keys. by rewrite elem_of_reverse, elem_of_remove_dups,
    elem_of_reverse.
Qed.

Lemma first_keys_snoc seen name param :
  requires_grad param = true →
  first_keys enc (seen ++ [(name, param)])
  = if bool_decide (key_of enc name param ∈ first_keys enc seen)
    then first_keys enc seen
    else first_keys enc seen ++ [key_of enc name param].
Proof.
  intros Hgrad. unfold first_keys at 1.
  rewrite trainable_snoc, Hgrad, fmap_app, reverse_app. simpl.
  destruct (decide_rel elem_of (key_of enc name param)
              (reverse (key <$> trainable seen))) as [Hin|Hout].
  - rewrite bool_decide_eq_true_2; [done|].
    apply first_keys_elem. by apply elem_of_reverse.
  - rewrite bool_decide_eq_false_2.
    + by rewrite reverse_cons.
    + rewrite first_keys_elem. by rewrite <-elem_of_reverse.
Qed.

Lemma first_keys_NoDup seen : NoDup (first_keys enc seen).
Proof.
  unfold first_keys. rewrite reverse_Permutation. apply NoDup_remove_dups.
Qed.

Lemma groups_spec_empty : spec [] ([], []).
Proof. by repeat split. Qed.

Lemma groups_spec_step seen groups name param :
  (requires_grad param = true → known_layer enc vit_num_layers name) →
  spec seen groups →
  ∃ groups',
    add_parameter enc
      ((λ i, power_of scale (vit_num_layers + 1 - i))
         <$> py_range (vit_num_layers + 2))
      weight_decay groups (name, param)
    = Return groups'
    ∧ spec (seen ++ [(name, param)]) groups'.
Proof.
  intros Hknown (Hnames & Hvars & Hkn & Hkv).
  destruct (requires_grad param) eqn:Hgrad.
  - eexists. split.
    + apply add_parameter_trainable; [done | by apply Hknown |].
      rewrite Hnames, Hvars. unfold expected_group.
      destruct (members enc (key_of enc name param) seen);
        split; by intros [? ?].
    + destruct groups as [names vars]. simpl in *.
      split; [|split; [|split]]; simpl.
      * intros k. destruct (decide (key_of enc name param = k)) as [<-|Hne].
        -- by rewrite upsert_get_eq, expected_snoc_same, Hnames.
        -- by rewrite upsert_get_ne, expected_snoc_other, Hnames.
      * intros k. destruct (decide (key_of enc name param = k)) as [<-|Hne].
        -- by rewrite upsert_get_eq, expected_snoc_same, Hvars.
        -- by rewrite upsert_get_ne, expected_snoc_other, Hvars.
      * unfold upsert. by rewrite dict_set_keys, first_keys_snoc, Hkn.
      * unfold upsert. by rewrite dict_set_keys, first_keys_snoc, Hkv.
  - exists groups. split; [by apply add_parameter_frozen|].
    unfold groups_spec, expected_group, members, first_keys.
    rewrite trainable_snoc, Hgrad, app_nil_r.
    by repeat split.
Qed.

Lemma groups_spec_loop rest : ∀ seen groups,
  (∀ name param,
     (name, param) ∈ rest → requires_grad param = true →
     known_layer enc vit_num_layers name) →
  spec seen groups →
  ∃ groups',
    parameter_groups enc
      ((λ i, power_of scale (vit_num_layers + 1 - i))
         <$> py_range (vit_num_layers + 2))
      weight_decay groups rest
    = Return groups'
    ∧ spec (seen ++ rest) groups'.
Proof.
  induction rest as [|[name param] rest IH]; intros seen groups Hknown Hspec.
  - exists groups. by rewrite app_nil_r.
  - destruct (groups_spec_step seen groups name param) as (g1 & Hstep & Hs1);
      [intros; eapply Hknown; [apply elem_of_cons; by left | done] | done |].
    destruct (IH (seen ++ [(name, param)]) g1) as (g2 & Hloop & Hs2);
      [intros; eapply Hknown; [apply elem_of_cons; by right | done] | done |].
    exists g2. simpl. rewrite Hstep. simpl. split; [done|].
    by rewrite <-app_assoc in Hs2.
Qed.

(** The loop from the empty dicts yields the expected groups. *)
Lemma parameter_groups_expected named :
  (∀ name param,
     (name, param) ∈ named → requires_grad param = true →
     known_layer enc vit_num_layers name) →
  ∃ groups,
    parameter_groups enc
      ((λ i, power_of scale (vit_num_layers + 1 - i))
         <$> py_range (vit_num_layers + 2))
      weight_decay ([], []) named
    = Return groups
    ∧ dict_values groups.2
      = expected_groups enc vit_num_layers scale weight_decay named.
Proof.
  intros Hknown.
  destruct (groups_spec_loop named [] ([], []) Hknown groups_spec_empty)
    as (groups & Hloop & Hspec).
  rewrite app_nil_l in Hspec. destruct Hspec as (_ & Hvars & _ & Hkeys).
  exists groups. split; [done|]. unfold expected_groups.
  rewrite <-Hkeys. apply dict_values_omap.
  - rewrite Hkeys. apply first_keys_NoDup.
  - intros k _. apply Hvars.
Qed.
End ExpectedGroups.

Lemma sum_list_cons (x : nat) (l : list nat) :
  sum_list (x :: l) = x + sum_list l.
Proof. reflexivity. Qed.

Lemma sum_list_fmap_add {A} (f g : A → nat) (l : list A) :
  sum_list ((λ x, f x + g x) <$> l) = sum_list (f <$> l) + sum_list (g <$> l).
Proof.
  induction l as [|x l IH]; [done|].
  rewrite !fmap_cons. rewrite ?sum_list_cons. rewrite IH. lia.
Qed.

Lemma sum_list_indicator (k : string) (l : list string) :
  NoDup l → k ∈ l →
  sum_list ((λ k', if decide (k = k') then 1 else 0) <$> l) = 1.
Proof.
  induction l as [|k0 l IH]; intros Hnodup Hin.
  - by apply elem_of_nil in Hin.
  - apply NoDup_cons in Hnodup as [Hfresh Hnodup].
    rewrite fmap_cons. rewrite ?sum_list_cons.
    destruct (decide (k = k0)) as [->|Hne].
    + f_equal. clear IH Hin Hnodup.
      induction l as [|k1 l IH]; [done|].
      rewrite fmap_cons. rewrite ?sum_list_cons. rewrite decide_False.
      * apply IH. intros Hin. apply Hfresh, elem_of_cons. by right.
      * intros ->. apply Hfresh, elem_of_cons. by left.
    + apply elem_of_cons in Hin as [?|Hin]; [done|]. by apply IH.
Qed.

(** Splitting a list by a key, over distinct keys that cover it, loses and
    repeats nothing. *)
Lemma filter_by_key_length {A} (key : A → string) (items : list A)
    (keys : list string) :
  NoDup keys →
  (∀ x, x ∈ items → key x ∈ keys) →
  sum_list ((λ k, length (filter (λ x, key x = k) items)) <$> keys)
  = length items.
Proof.
  intros Hnodup. induction items as [|x items IH]; intros Hcover.
  - clear Hnodup Hcover. induction keys as [|k keys IHk]; [done|].
    rewrite fmap_cons. rewrite ?sum_list_cons. by rewrite IHk.
  - change (length (x :: items)) with (1 + length items).
    rewrite <-(sum_list_indicator (key x) keys Hnodup)
      by (apply Hcover, elem_of_cons; by left).
    rewrite <-IH by (intros y Hy; apply Hcover, elem_of_cons; by right).
    rewrite <-sum_list_fmap_add. f_equal. apply list_fmap_ext.
    intros _ k _. rewrite filter_cons. by destruct (decide (key x = k)).
Qed.

Lemma omap_total {A B} (f : A → option B) (g : A → B) (l : list A) :
  (∀ x, x ∈ l → f x = Some (g x)) → omap f l = g <$> l.
Proof.
  induction l as [|x l IH]; intros Hf; simpl; [done|].
  rewrite (Hf x) by (apply elem_of_cons; by left). f_equal.
  apply IH. intros y Hy. apply Hf, elem_of_cons. by right.
Qed.

Section ExpectedGroupsFacts.
Context {World : Type} `{!Library World}.
Variables (enc : VisionEncoder) (vit_num_layers : Z).
Variables (scale weight_decay : PyNum).

Lemma members_first_key k named :
  k ∈ first_keys enc named → members enc k named ≠ [].
Proof.
  rewrite first_keys_elem. intros Hin Hempty.
  apply list_elem_of_fmap in Hin as (np & -> & Hnp).
  assert (np ∈ members enc (key_of enc np.1 np.2) named) as Hmem.
  { unfold members. by apply list_elem_of_filter. }
  rewrite Hempty in Hmem. by apply elem_of_nil in Hmem.
Qed.

Lemma expected_groups_sound g named :
  g ∈ expected_groups enc vit_num_layers scale weight_decay named →
  group_params g ≠ []
  ∧ ∀ param,
      param ∈ group_params g →
      ∃ name, (name, param) ∈ named ∧ requires_grad param = true.
Proof.
  unfold expected_groups. rewrite list_elem_of_omap.
  intros (k & Hk & Hg). unfold expected_group in Hg.
  destruct (members enc k named) as [|np rest] eqn:Hmem; [done|].
  injection Hg as <-. simpl. split; [done|].
  intros param Hin. rewrite <-fmap_cons in Hin.
  apply list_elem_of_fmap in Hin as ([name p] & -> & Hin).
  rewrite <-Hmem in Hin. unfold members, trainable in Hin.
  apply list_elem_of_filter in Hin as [_ Hin].
  apply list_elem_of_filter in Hin as [Hgrad Hin].
  by exists name.
Qed.

Lemma expected_groups_sizes named :
  sum_list
    ((λ g, length (group_params g))
       <$> expected_groups enc vit_num_layers scale weight_decay named)
  = length (trainable named).
Proof.
  unfold expected_groups.
  rewrite (omap_total _
             (λ k, mkGroup
                     (wd_of weight_decay
                        (default false
                           ((λ np, is_no_decay np.1 np.2)
                              <$> head (members enc k named))))
                     (snd <$> members enc k named)
                     (scale_of vit_num_layers scale
                        (head (members enc k named)
                           ≫= λ np, layer_of enc np.1)))).
  - rewrite <-list_fmap_compose.
    rewrite <-(filter_by_key_length (λ np, key_of enc np.1 np.2)
                 (trainable named) (first_keys enc named)).
    + f_equal. apply list_fmap_ext. intros _ k _. simpl.
      by rewrite length_fmap.
    + apply first_keys_NoDup.
    + intros np Hnp. apply first_keys_elem, list_elem_of_fmap. by exists np.
  - intros k Hk. apply members_first_key in Hk. unfold expected_group.
    by destruct (members enc k named).
Qed.
End ExpectedGroupsFacts.

Section GetOptimizerParamsMore.
Context {World : Type} `{!Library World}.

Lemma get_optimizer_params_run (weight_decay : PyNum)
    (lr_scale : option PyNum) (st : State World) (enc : VisionEncoder)
    (vit_num_layers : Z) :
  vit_name (self st) = Some "eva_clip_g" →
  visual_encoder (self st) = Some enc →
  get_num_layer enc None = inr vit_num_layers →
  get_optimizer_params weight_decay lr_scale st
  = (match py_listcomp
             (λ i, py_pow (default (PyInt 1) lr_scale)
                     (vit_num_layers + 1 - i))
             (py_range (vit_num_layers + 2)) with
     | Return lr_scales =>
         match parameter_groups enc lr_scales weight_decay ([], [])
                 (named_parameters (self st)) with
         | Return groups => Return (dict_values groups.2)
         | Raise o e => Raise o e
         end
     | Raise o e => Raise o e
     end, st).
Proof.
  intros Hname Henc Hlayers.
  unfold get_optimizer_params, bind, getattr, lift, get_self, ret.
  rewrite Hname. simpl. rewrite Henc. simpl. rewrite Hlayers. simpl.
  destruct (py_listcomp _ _); [|done].
  by destruct (parameter_groups _ _ _ _ _).
Qed.

(** X14: under the conditions of the layer-wise branch (the encoder
    reports [vit_num_layers] and a layer id within
    [0 .. vit_num_layers + 1] for every trainable parameter of the
    encoder, and the powers [lr_scale ** k], [k = 0 .. vit_num_layers + 1],
    are computed without exception), the list returned is fully
    determined: one group for each
    distinct group name, in the order in which the trainable parameters
    first carry the names; each group holds exactly the trainable
    parameters of its name, in the order of the model, with the weight
    decay and the scale of the first of them. *)
Theorem get_optimizer_params_expected (weight_decay : PyNum)
    (lr_scale : option PyNum) (st : State World) (enc : VisionEncoder)
    (vit_num_layers : Z)
    (Hname : vit_name (self st) = Some "eva_clip_g")
    (Henc : visual_encoder (self st) = Some enc)
    (Hlayers : get_num_layer enc None = inr vit_num_layers)
    (Hids : ∀ name param,
       (name, param) ∈ named_parameters (self st) →
       requires_grad param = true →
       known_layer enc vit_num_layers name)
    (Hpow : ∀ k,
       (0 ≤ k ≤ vit_num_layers + 1)%Z →
       ∃ p, py_pow (default (PyInt 1) lr_scale) k = Return p) :
  get_optimizer_params weight_decay lr_scale st
  = (Return (expected_groups enc vit_num_layers (default (PyInt 1) lr_scale)
               weight_decay (named_parameters (self st))), st).
Proof.
  rewrite (get_optimizer_params_run _ _ _ enc vit_num_layers) by done.
  rewrite (lr_scales_computed _ _ Hpow).
  destruct (parameter_groups_expected enc vit_num_layers
              (default (PyInt 1) lr_scale) weight_decay
              (named_parameters (self st)) Hids) as (groups & -> & <-).
  reflexivity.
Qed.

(** X15: under the same conditions (layer ids within the table, powers
    of [lr_scale] computed without exception), frozen parameters are in no group and
    no group is empty: every parameter of a returned group is a parameter
    of the model that requires gradients. *)
Theorem get_optimizer_params_only_trainable (weight_decay : PyNum)
    (lr_scale : option PyNum) (st : State World) (enc : VisionEncoder)
    (vit_num_layers : Z)
    (Hname : vit_name (self st) = Some "eva_clip_g")
    (Henc : visual_encoder (self st) = Some enc)
    (Hlayers : get_num_layer enc None = inr vit_num_layers)
    (Hids : ∀ name param,
       (name, param) ∈ named_parameters (self st) →
       requires_grad param = true →
       known_layer enc vit_num_layers name)
    (Hpow : ∀ k,
       (0 ≤ k ≤ vit_num_layers + 1)%Z →
       ∃ p, py_pow (default (PyInt 1) lr_scale) k = Return p) :
  ∃ groups,
    get_optimizer_params weight_decay lr_scale st = (Return groups, st)
    ∧ ∀ g, g ∈ groups →
        group_params g ≠ []
        ∧ ∀ param,
            param ∈ group_params g →
            ∃ name,
              (name, param) ∈ named_parameters (self st)
              ∧ requires_grad param = true.
Proof.
  rewrite (get_optimizer_params_run _ _ _ enc vit_num_layers) by done.
  rewrite (lr_scales_computed _ _ Hpow).
  destruct (parameter_groups_expected enc vit_num_layers
              (default (PyInt 1) lr_scale) weight_decay
              (named_parameters (self st)) Hids) as (groups & -> & Hvalues).
  eexists. split; [reflexivity|]. rewrite Hvalues.
  intros g. apply expected_groups_sound.
Qed.

(** X16: under the same conditions (layer ids within the table, powers
    of [lr_scale] computed without exception), the sizes of the returned groups add
    up to the number of trainable parameters: each of them is placed
    once. *)
Theorem get_optimizer_params_sizes (weight_decay : PyNum)
    (lr_scale : option PyNum) (st : State World) (enc : VisionEncoder)
    (vit_num_layers : Z)
    (Hname : vit_name (self st) = Some "eva_clip_g")
    (Henc : visual_encoder (self st) = Some enc)
    (Hlayers : get_num_layer enc None = inr vit_num_layers)
    (Hids : ∀ name param,
       (name, param) ∈ named_parameters (self st) →
       requires_grad param = true →
       known_layer enc vit_num_layers name)
    (Hpow : ∀ k,
       (0 ≤ k ≤ vit_num_layers + 1)%Z →
       ∃ p, py_pow (default (PyInt 1) lr_scale) k = Return p) :
  ∃ groups,
    get_optimizer_params weight_decay lr_scale st = (Return groups, st)
    ∧ sum_list ((λ g, length (group_params g)) <$> groups)
      = length (trainable (named_parameters (self st))).
Proof.
  rewrite (get_optimizer_params_run _ _ _ enc vit_num_layers) by done.
  rewrite (lr_scales_computed _ _ Hpow).
  destruct (parameter_groups_expected enc vit_num_layers
              (default (PyInt 1) lr_scale) weight_decay
              (named_parameters (self st)) Hids) as (groups & -> & Hvalues).
  eexists. split; [reflexivity|]. rewrite Hvalues.
  apply expected_groups_sizes.
Qed.
End GetOptimizerParamsMore.

Lemma toy_powers_of_two (k : Z) :
  (0 ≤ k ≤ 2 + 1)%Z →
  ∃ p, py_pow (default (PyInt 1) (Some (PyInt 2))) k = Return p.
Proof. intros Hk. exists (PyInt (2 ^ k)). apply py_pow_int. lia. Qed.

Lemma toy_known_layers (name : string) (param : Param) :
  (name, param) ∈ toy_named_parameters →
  requires_grad param = true →
  known_layer toy_encoder 2 name.
Proof.
  intros Hin Hgrad Hvis. unfold toy_named_parameters in Hin.
  repeat (apply elem_of_cons in Hin as [Hin|Hin];
          [injection Hin as -> ->;
           first [discriminate Hvis | discriminate Hgrad
                 | eexists; split; [reflexivity | lia]]|]).
  by apply elem_of_nil in Hin.
Qed.

Lemma get_optimizer_params_expected_witness :
  get_optimizer_params (PyFloat 0.5) (Some (PyInt 2)) toy_model
  = (Return (expected_groups toy_encoder 2 (PyInt 2) (PyFloat 0.5)
               toy_named_parameters), toy_model).
Proof.
  apply (@get_optimizer_params_expected ToyWorld toy_library (PyFloat 0.5)
           (Some (PyInt 2)) toy_model toy_encoder 2 eq_refl eq_refl eq_refl).
  - apply toy_known_layers.
  - apply toy_powers_of_two.
Defined.

Lemma get_optimizer_params_only_trainable_witness :
  ∃ groups,
    get_optimizer_params (PyFloat 0.5) (Some (PyInt 2)) toy_model
    = (Return groups, toy_model)
    ∧ ∀ g, g ∈ groups →
        group_params g ≠ []
        ∧ ∀ param,
            param ∈ group_params g →
            ∃ name,
              (name, param) ∈ toy_named_parameters
              ∧ requires_grad param = true.
Proof.
  apply (@get_optimizer_params_only_trainable ToyWorld toy_library
           (PyFloat 0.5) (Some (PyInt 2)) toy_model toy_encoder 2
           eq_refl eq_refl eq_refl).
  - apply toy_known_layers.
  - apply toy_powers_of_two.
Defined.

Lemma get_optimizer_params_sizes_witness :
  ∃ groups,
    get_optimizer_params (PyFloat 0.5) (Some (PyInt 2)) toy_model
    = (Return groups, toy_model)
    ∧ sum_list ((λ g, length (group_params g)) <$> groups) = 6.
Proof.
  apply (@get_optimizer_params_sizes ToyWorld toy_library
           (PyFloat 0.5) (Some (PyInt 2)) toy_model toy_encoder 2
           eq_refl eq_refl eq_refl).
  - apply toy_known_layers.
  - apply toy_powers_of_two.
Defined.

Example expected_groups_example :
  expected_groups toy_encoder 2 (PyInt 2) (PyFloat 0.5) toy_named_parameters
  = [mkGroup (PyFloat 0.5)
       [mkParam (mkTensor float32 [8; 3; 2; 2]%Z []) true] (PyInt 8);
     mkGroup (PyFloat 0.5)
       [mkParam (mkTensor float32 [24; 8]%Z []) true] (PyInt 4);
     mkGroup (PyFloat 0)
       [mkParam (mkTensor float32 [32]%Z []) true] (PyInt 2);
     mkGroup (PyFloat 0.5)
       [mkParam (mkTensor float32 [32; 8]%Z []) true] (PyInt 2);
     mkGroup (PyFloat 0)
       [mkParam (mkTensor float32 [8]%Z []) true] (PyInt 1);
     mkGroup (PyFloat 0.5)
       [mkParam (mkTensor float32 [100; 8]%Z []) true] (PyInt 1)].
Proof. vm_compute. reflexivity. Qed.

(** ** get_optimizer_params: what it leaves alone, and when it fails *)

Section GetOptimizerParamsFailures.
Context {World : Type} `{!Library World}.

(** X17: in the layer-wise branch [get_optimizer_params] only reads: the
    instance, the world and the log are the same afterwards, whether it
    returns or raises. *)
Theorem get_optimizer_params_reads_only (weight_decay : PyNum)
    (lr_scale : option PyNum) (st : State World)
    (Hname : vit_name (self st) = Some "eva_clip_g") :
  (get_optimizer_params weight_decay lr_scale st).2 = st.
Proof.
  unfold get_optimizer_params, bind, getattr, lift, get_self, ret.
  rewrite Hname. simpl.
  destruct (visual_encoder (self st)) as [enc|]; simpl; [|done].
  destruct (get_num_layer enc None) as [e|n]; simpl; [done|].
  destruct (py_listcomp _ _) as [lr_scales|]; simpl; [|done].
  by destruct (parameter_groups _ _ _ _ _).
Qed.

Lemma add_parameter_unknown_layer (enc : VisionEncoder)
    (lr_scales : list PyNum) (weight_decay : PyNum)
    (groups : dict (ParamGroup string) * dict (ParamGroup Param))
    (name : string) (param : Param) (e : PyExn) :
  requires_grad param = true →
  py_in "visual_encoder" name = true →
  get_num_layer enc (Some (py_replace "visual_encoder." "" name)) = inl e →
  add_parameter enc lr_scales weight_decay groups (name, param)
  = Raise Callee e.
Proof.
  intros Hgrad Hvis Hlayer. unfold add_parameter. cbn [fst snd].
  rewrite Hgrad, Hvis, Hlayer. reflexivity.
Qed.

Lemma parameter_groups_unknown_layer (enc : VisionEncoder)
    (lr_scales : list PyNum) (weight_decay : PyNum)
    (name : string) (param : Param) (e : PyExn)
    (named : list (string * Param)) : ∀ groups,
  (name, param) ∈ named →
  requires_grad param = true →
  py_in "visual_encoder" name = true →
  get_num_layer enc (Some (py_replace "visual_encoder." "" name)) = inl e →
  ∃ o e', parameter_groups enc lr_scales weight_decay groups named
          = Raise o e'.
Proof.
  induction named as [|np rest IH]; intros groups Hin Hgrad Hvis Hlayer.
  - by apply elem_of_nil in Hin.
  - cbn [parameter_groups].
    apply elem_of_cons in Hin as [<-|Hin].
    + rewrite (add_parameter_unknown_layer _ _ _ _ _ _ e) by done.
      by eexists _, _.
    + destruct (add_parameter enc lr_scales weight_decay groups np)
        as [groups'|o e']; cbn [obind].
      * by apply IH.
      * by eexists _, _.
Qed.

(** X18: if the encoder cannot tell the layer of some trainable parameter
    whose name contains ['visual_encoder'] ([get_num_layer] raises on it),
    [get_optimizer_params] returns no groups at all: it raises, whatever
    the other parameters are. *)
Theorem get_optimizer_params_unknown_layer (weight_decay : PyNum)
    (lr_scale : option PyNum) (st : State World) (enc : VisionEncoder)
    (vit_num_layers : Z) (name : string) (param : Param) (e : PyExn)
    (Hname : vit_name (self st) = Some "eva_clip_g")
    (Henc : visual_encoder (self st) = Some enc)
    (Hlayers : get_num_layer enc None = inr vit_num_layers)
    (Hin : (name, param) ∈ named_parameters (self st))
    (Hgrad : requires_grad param = true)
    (Hvis : py_in "visual_encoder" name = true)
    (Hlayer : get_num_layer enc (Some (py_replace "visual_encoder." "" name))
              = inl e) :
  ∃ o e', get_optimizer_params weight_decay lr_scale st = (Raise o e', st).
Proof.
  rewrite (get_optimizer_params_run _ _ _ enc vit_num_layers) by done.
  destruct (py_listcomp _ _) as [lr_scales|o e']; [|by exists o, e'].
  destruct (parameter_groups_unknown_layer enc lr_scales
              weight_decay name param e (named_parameters (self st))
              ([], []) Hin Hgrad Hvis Hlayer) as (o & e' & ->).
  by exists o, e'.
Qed.
End GetOptimizerParamsFailures.

Lemma get_optimizer_params_reads_only_witness :
  (get_optimizer_params (PyFloat 0.5) None toy_model).2 = toy_model.
Proof.
  apply (get_optimizer_params_reads_only (World := ToyWorld)).
  reflexivity.
Defined.

Lemma get_optimizer_params_unknown_layer_witness :
  ∃ o e',
    @get_optimizer_params ToyWorld toy_broken (PyFloat 0.5) None toy_model
    = (Raise o e', toy_model).
Proof.
  apply (@get_optimizer_params_unknown_layer ToyWorld toy_broken
           (PyFloat 0.5) None toy_model toy_encoder 2
           "visual_encoder.blocks.0.attn.qkv.weight"
           (mkParam (mkTensor float32 [24; 8]%Z []) true)
           (mkExn ValueError (ArgStr "blocks.0.attn.qkv.weight")));
    try reflexivity.
  unfold toy_model, toy_named_parameters. simpl.
  apply elem_of_cons. right. apply elem_of_cons. right.
  apply elem_of_cons. by left.
Defined.

(** ** get_optimizer_params: layer ids outside the table of scales *)

Lemma py_index_out_of_range {A} (l : list A) (i : Z) :
  (i < - Z.of_nat (length l) ∨ Z.of_nat (length l) ≤ i)%Z →
  py_index l i = Raise Here (mkExn IndexError (ArgStr index_out_of_range)).
Proof.
  intros Hout. unfold py_index. cbv zeta.
  destruct (decide (i < 0)%Z).
  - destruct (decide (0 ≤ Z.of_nat (length l) + i < Z.of_nat (length l))%Z);
      [lia | done].
  - destruct (decide (0 ≤ i < Z.of_nat (length l))%Z); [lia | done].
Qed.

Lemma dict_contains_set {V} (d : dict V) (k k' : string) (v : V) :
  dict_contains (dict_set d k v) k' = true
  ↔ dict_contains d k' = true ∨ k = k'.
Proof.
  rewrite !dict_contains_get. destruct (decide (k = k')) as [<-|Hne].
  - rewrite dict_get_set_eq. split; [by right | by eexists].
  - rewrite dict_get_set_ne by done. split; [by left | by intros [?|?]].
Qed.

Lemma vit_layer_group_name_key (l : Z) (nd : bool) :
  vit_layer_group_name l (if nd then "no_decay" else "decay")
  = group_key nd (Some l).
Proof. reflexivity. Qed.

Section LayerBounds.
Context {World : Type} `{!Library World}.
Variables (enc : VisionEncoder) (lr_scales : list PyNum).
Variable (weight_decay : PyNum).

Lemma add_parameter_out_of_table groups name param l :
  requires_grad param = true →
  py_in "visual_encoder" name = true →
  get_num_layer enc (Some (py_replace "visual_encoder." "" name)) = inr l →
  (l < - Z.of_nat (length lr_scales)
   ∨ Z.of_nat (length lr_scales) ≤ l)%Z →
  layers_in_table lr_scales groups.1 →
  add_parameter enc lr_scales weight_decay groups (name, param)
  = Raise Here (mkExn IndexError (ArgStr index_out_of_range)).
Proof.
  intros Hgrad Hvis Hlayer Hout Htable.
  unfold add_parameter. cbn [fst snd]. rewrite Hgrad, Hvis, Hlayer.
  cbn [negb of_lib obind]. fold (is_no_decay name param).
  rewrite vit_layer_group_name_key.
  destruct (dict_contains groups.1
              (group_key (is_no_decay name param) (Some l))) eqn:Hin.
  - apply Htable in Hin. lia.
  - cbn [negb]. by rewrite py_index_out_of_range.
Qed.

Lemma add_parameter_keeps_table groups named groups' :
  add_parameter enc lr_scales weight_decay groups named = Return groups' →
  layers_in_table lr_scales groups.1 → layers_in_table lr_scales groups'.1.
Proof.
  destruct named as [name param]. unfold add_parameter. cbn [fst snd].
  destruct (requires_grad param); cbn [negb]; [|by intros [= <-]].
  fold (is_no_decay name param).
  set (nd := is_no_decay name param).
  assert (∀ layer scale names vars,
            names = groups.1 →
            (dict_contains groups.1 (group_key nd layer) = false →
             match layer with
             | Some l => py_index lr_scales l = Return scale
             | None => True
             end) →
            (gv <- dict_item vars (group_key nd layer) ;;
             gn <- dict_item
                     (if dict_contains groups.1 (group_key nd layer)
                      then names
                      else dict_set names (group_key nd layer)
                             (mkGroup (if nd then PyFloat 0 else weight_decay)
                                [] scale))
                     (group_key nd layer) ;;
             Return
               (dict_set
                  (if dict_contains groups.1 (group_key nd layer)
                   then names
                   else dict_set names (group_key nd layer)
                          (mkGroup (if nd then PyFloat 0 else weight_decay)
                             [] scale))
                  (group_key nd layer)
                  (mkGroup (group_weight_decay gn) (group_params gn ++ [name])
                     (group_lr_scale gn)),
                dict_set vars (group_key nd layer)
                  (mkGroup (group_weight_decay gv) (group_params gv ++ [param])
                     (group_lr_scale gv))))%O
            = Return groups' →
            layers_in_table lr_scales groups.1 →
            layers_in_table lr_scales groups'.1) as Hfinish.
  { intros layer scale names vars -> Hscale.
    destruct (dict_item vars _) as [gv|]; cbn [obind]; [|done].
    destruct (dict_item _ _) as [gn|]; cbn [obind]; [|done].
    intros [= <-] Htable nd' l' Hin. cbn [fst] in Hin.
    apply dict_contains_set in Hin as [Hin|Heq].
    - destruct (dict_contains groups.1 (group_key nd layer)) eqn:Hold.
      + by apply (Htable nd').
      + apply dict_contains_set in Hin as [Hin|Heq]; [by apply (Htable nd')|].
        apply group_key_inj in Heq as [_ ->]. specialize (Hscale eq_refl).
        destruct (decide (l' < - Z.of_nat (length lr_scales)
                          ∨ Z.of_nat (length lr_scales) ≤ l')%Z)
          as [Hout|?];
          [|lia].
        by rewrite py_index_out_of_range in Hscale.
    - apply group_key_inj in Heq as [_ ->].
      destruct (dict_contains groups.1 (group_key nd (Some l'))) eqn:Hold.
      + by apply (Htable nd).
      + specialize (Hscale eq_refl).
        destruct (decide (l' < - Z.of_nat (length lr_scales)
                          ∨ Z.of_nat (length lr_scales) ≤ l')%Z)
          as [Hout|?];
          [|lia].
        by rewrite py_index_out_of_range in Hscale. }
  destruct (py_in "visual_encoder" name).
  - destruct (get_num_layer enc _) as [e|l]; cbn [of_lib obind]; [done|].
    rewrite vit_layer_group_name_key.
    destruct (dict_contains groups.1 (group_key nd (Some l))) eqn:Hin;
      cbn [negb obind fst snd].
    + intros Hrun. apply (Hfinish (Some l) (PyInt 1) groups.1 groups.2);
        [done | congruence |]. by rewrite Hin.
    + destruct (py_index lr_scales l) as [scale|] eqn:Hscale;
        cbn [obind fst snd]; [|done].
      intros Hrun. apply (Hfinish (Some l) scale groups.1
                            (dict_set groups.2 (group_key nd (Some l))
                               (mkGroup (if nd then PyFloat 0 else weight_decay)
                                  [] scale))); [done | done |].
      by rewrite Hin.
  - cbn [obind].
    change (if nd then "no_decay" else "decay") with (group_key nd None).
    destruct (dict_contains groups.1 (group_key nd None)) eqn:Hin;
      cbn [negb obind fst snd].
    + intros Hrun. apply (Hfinish None (PyInt 1) groups.1 groups.2);
        [done | done |]. by rewrite Hin.
    + intros Hrun. apply (Hfinish None (PyInt 1) groups.1
                            (dict_set groups.2 (group_key nd None)
                               (mkGroup (if nd then PyFloat 0 else weight_decay)
                                  [] (PyInt 1)))); [done | done |].
      by rewrite Hin.
Qed.

Lemma parameter_groups_out_of_table name param l named : ∀ groups,
  (name, param) ∈ named →
  requires_grad param = true →
  py_in "visual_encoder" name = true →
  get_num_layer enc (Some (py_replace "visual_encoder." "" name)) = inr l →
  (l < - Z.of_nat (length lr_scales)
   ∨ Z.of_nat (length lr_scales) ≤ l)%Z →
  layers_in_table lr_scales groups.1 →
  ∃ o e, parameter_groups enc lr_scales weight_decay groups named = Raise o e.
Proof.
  induction named as [|np rest IH];
    intros groups Hin Hgrad Hvis Hlayer Hout Htable.
  - by apply elem_of_nil in Hin.
  - cbn [parameter_groups]. apply elem_of_cons in Hin as [<-|Hin].
    + rewrite (add_parameter_out_of_table _ _ _ l) by done. by eexists _, _.
    + destruct (add_parameter enc lr_scales weight_decay groups np)
        as [groups'|o e] eqn:Hstep; cbn [obind].
      * apply IH; try done. by eapply add_parameter_keeps_table.
      * by eexists _, _.
Qed.
End LayerBounds.

Section LayerBoundsTheorem.
Context {World : Type} `{!Library World}.

(** X19: [lr_scales] has [vit_num_layers + 2] entries.  If some trainable
    parameter whose name contains ['visual_encoder'] has a layer id
    outside [-(vit_num_layers + 2) .. vit_num_layers + 1], the range list
    indexing accepts, [get_optimizer_params] returns no groups: it
    raises. *)
Theorem get_optimizer_params_layer_out_of_table (weight_decay : PyNum)
    (lr_scale : option PyNum) (st : State World) (enc : VisionEncoder)
    (vit_num_layers : Z) (name : string) (param : Param) (layer_id : Z)
    (Hname : vit_name (self st) = Some "eva_clip_g")
    (Henc : visual_encoder (self st) = Some enc)
    (Hlayers : get_num_layer enc None = inr vit_num_layers)
    (Hin : (name, param) ∈ named_parameters (self st))
    (Hgrad : requires_grad param = true)
    (Hvis : py_in "visual_encoder" name = true)
    (Hlayer : get_num_layer enc (Some (py_replace "visual_encoder." "" name))
              = inr layer_id)
    (Hout : (layer_id < - (vit_num_layers + 2)
             ∨ vit_num_layers + 2 ≤ layer_id)%Z) :
  ∃ o e, get_optimizer_params weight_decay lr_scale st = (Raise o e, st).
Proof.
  rewrite (get_optimizer_params_run _ _ _ enc vit_num_layers) by done.
  destruct (py_listcomp _ _) as [lr_scales|o e] eqn:Htable;
    [|by exists o, e].
  apply py_listcomp_length in Htable.
  destruct (parameter_groups_out_of_table enc lr_scales
              weight_decay name param layer_id (named_parameters (self st))
              ([], []) Hin Hgrad Hvis Hlayer) as (o & e & ->).
  - rewrite Htable, py_range_length. lia.
  - intros nd l Hcontains. discriminate Hcontains.
  - by exists o, e.
Qed.
End LayerBoundsTheorem.

Lemma get_optimizer_params_layer_out_of_table_witness :
  ∃ o e,
    @get_optimizer_params ToyWorld (toy_with_layers toy_layer_7)
      (PyFloat 0.5) None toy_model
    = (Raise o e, toy_model).
Proof.
  apply (@get_optimizer_params_layer_out_of_table ToyWorld
           (toy_with_layers toy_layer_7) (PyFloat 0.5) None toy_model
           toy_encoder 2 "visual_encoder.blocks.0.attn.qkv.weight"
           (mkParam (mkTensor float32 [24; 8]%Z []) true) 7);
    try reflexivity.
  - unfold toy_model, toy_named_parameters. simpl.
    apply elem_of_cons. right. apply elem_of_cons. right.
    apply elem_of_cons. by left.
  - right. done.
Defined.

Example get_optimizer_params_out_of_table_runs :
  @get_optimizer_params ToyWorld (toy_with_layers toy_layer_7)
    (PyFloat 0.5) None toy_model
  = (Raise Here (mkExn IndexError (ArgStr index_out_of_range)), toy_model).
Proof. vm_compute. reflexivity. Qed.
